(** * Canvas audio LTI tool: the server's request handlers

    A shallow embedding of [server.js] (express application): the storage
    selection made at module load, the multer upload middleware configured
    there, the route handlers [/launch], [/upload-audio],
    [/submission/:submissionId] and [/submissions], the outcome reporter
    [sendGradeToCanvas] and the error-handling middleware.

    The process state (environment, chosen storage, session store, the
    [submissions] table, the [uploads] directory, the S3 bucket and the
    chronological trace of side effects) is threaded explicitly.  What the
    outside world decides during one request (generated uuids, whether the
    disk, S3, sqlite or the LMS fail, the clock) is gathered in an [Oracle]
    record handed to the handler. *)

From Stdlib Require Import QArith.QArith_base.
From Stdlib Require Import Sorting.Sorted Sorting.Permutation.
From stdpp Require Import base option list strings pretty gmap.

Local Open Scope N_scope.

(** ** JavaScript values *)

(** A value read from [process.env] or from a form body is a string or
    [undefined]. *)
Abbreviation jsval := (option string).

(** JavaScript truthiness of such a value: [undefined] and the empty
    string are falsy. *)
Definition truthy (v : jsval) : bool :=
  match v with
  | Some s => negb (String.eqb s "")
  | None => false
  end.

(** [`${v}`]: string conversion inside a template literal. *)
Definition template (v : jsval) : string :=
  match v with
  | Some s => s
  | None => "undefined"
  end.

(** ** Data model *)

(** [req.session.lti], as assigned by the launch handler. *)
Record LtiSession := mkLti {
  userId : jsval;
  courseId : jsval;
  assignmentId : jsval;
  roles : jsval;
  lisResultSourcedid : jsval;
  lisOutcomeServiceUrl : jsval;
  consumerKey : jsval
}.

(** One row of the [submissions] table.  A TEXT column holds a string or
    NULL ([None]); [created_at] is the CURRENT_TIMESTAMP default, kept as
    seconds on the server clock (its text form orders the same way). *)
Record Submission := mkRow {
  id : string;
  user_id : jsval;
  course_id : jsval;
  assignment_id : jsval;
  audio_url : string;
  file_name : jsval;
  file_size : N;
  duration : option N;
  created_at : N
}.

(** What [SELECT id, file_name, file_size, created_at] returns per row. *)
Record Summary := mkSummary {
  s_id : string;
  s_file_name : jsval;
  s_file_size : N;
  s_created_at : N
}.

(** The multipart part sent in field [audio]. *)
Record Part := mkPart {
  mimetype : string;
  content : list Byte.byte
}.

Definition byte_length (p : Part) : N := N.of_nat (length (content p)).

(** [req.file] as multer fills it in: [buffer] under memoryStorage,
    [filename] under diskStorage, the other one [undefined]. *)
Record MulterFile := mkFile {
  f_mimetype : string;
  f_size : N;
  f_buffer : option (list Byte.byte);
  f_filename : jsval
}.

Inductive Storage := MemoryStorage | DiskStorage.

Record S3Object := mkObj {
  Bucket : jsval;
  Key : string;
  Body : list Byte.byte;
  ContentType : string;
  ACL : string;
  Location : string
}.

(** Side effects, in the order they happen. *)
Inductive Effect :=
| DiskWrite (name : string)                    (* file created in uploads/ *)
| DiskUnlink (name : string)                   (* file removed from uploads/ *)
| S3Upload (key : string)                      (* s3.upload(params) resolved *)
| DbInsert (row_id : string)                   (* INSERT committed *)
| GradeReport (lti : LtiSession) (grade : Q)   (* sendGradeToCanvas called *)
| ConsoleError (prefix detail : string)
| ConsoleLog (line : string).

(** JSON (and other) response bodies the handlers produce. *)
Inductive Payload :=
| JError (error : string)
| JUploaded (success : bool) (submissionId audioUrl message : string)
| JRow (row : Submission)
| JRows (rows : list Summary)
| Text (s : string)
| SendFile (path : string).

Record Response := mkResp { status : N; payload : Payload }.

Definition json (code : N) (b : Payload) : Response := mkResp code b.

(** ** The outside world during one request *)

Inductive S3Outcome := S3Resolved (location : string) | S3Rejected (message : string).

(** What happens inside [sendGradeToCanvas]: building the provider or
    calling [send_replace_result] throws, or the callback is run with or
    without an error. *)
Inductive OutcomeResult :=
| OutcomeThrew (message : string)
| OutcomeErr (message : string)
| OutcomeOk.

(** What happens in the launch handler: [new lti.Provider(...)] throws, or
    [valid_request] runs its callback with an error, with [isValid] false,
    or with [isValid] true. *)
Inductive LtiVerdict :=
| LtiThrew (message : string)
| LtiErr (message : string)
| LtiInvalid
| LtiValid.

Record Oracle := mkOracle {
  o_uuid_name : string;      (* uuidv4() in diskStorage's filename *)
  o_uuid_sub : string;       (* uuidv4() in the upload handler *)
  o_disk : option string;    (* error of the disk write, if it fails *)
  o_s3 : S3Outcome;
  o_db : option string;      (* error sqlite reports, if it fails *)
  o_now : N;                 (* CURRENT_TIMESTAMP *)
  o_outcome : OutcomeResult;
  o_lti : LtiVerdict
}.

(** ** Process state *)

Record Process := mkProcess {
  p_env : gmap string string;             (* process.env *)
  p_storage : Storage;                    (* the module-level [storage] *)
  p_sessions : gmap string LtiSession;    (* session id -> req.session.lti *)
  p_db : list Submission;                 (* table submissions, insertion order *)
  p_uploads : gmap string (list Byte.byte); (* directory uploads/ *)
  p_bucket : list S3Object;               (* the objects put, in the order of the calls *)
  p_trace : list Effect
}.

Definition with_trace (p : Process) (e : Effect) : Process :=
  mkProcess (p_env p) (p_storage p) (p_sessions p) (p_db p) (p_uploads p)
            (p_bucket p) (p_trace p ++ [e]).

Definition with_db (p : Process) (db : list Submission) : Process :=
  mkProcess (p_env p) (p_storage p) (p_sessions p) db (p_uploads p)
            (p_bucket p) (p_trace p).

Definition with_upload (p : Process) (name : string) (bytes : list Byte.byte) : Process :=
  mkProcess (p_env p) (p_storage p) (p_sessions p) (p_db p)
            (<[name := bytes]> (p_uploads p)) (p_bucket p) (p_trace p).

(** [fs.unlink] of a file of the uploads directory. *)
Definition with_unlink (p : Process) (name : string) : Process :=
  mkProcess (p_env p) (p_storage p) (p_sessions p) (p_db p)
            (delete name (p_uploads p)) (p_bucket p) (p_trace p).

(** [s3.upload(params)] resolved.  The bucket is kept as the sequence of
    the objects put; S3 itself serves, under a key, the object put last. *)
Definition with_object (p : Process) (o : S3Object) : Process :=
  mkProcess (p_env p) (p_storage p) (p_sessions p) (p_db p) (p_uploads p)
            (p_bucket p ++ [o]) (p_trace p).

Definition with_session (p : Process) (sid : string) (s : LtiSession) : Process :=
  mkProcess (p_env p) (p_storage p) (<[sid := s]> (p_sessions p)) (p_db p)
            (p_uploads p) (p_bucket p) (p_trace p).

(** ** Storage selection (module load) *)

Definition select_storage (env : gmap string string) : Storage :=
  if truthy (env !! "AWS_ACCESS_KEY_ID") && truthy (env !! "AWS_SECRET_ACCESS_KEY")
  then MemoryStorage
  else DiskStorage.

(** What outlives the process: the database file (in production), the
    uploads directory and the bucket. *)
Record Persisted := mkPersisted {
  d_db : list Submission;
  d_uploads : gmap string (list Byte.byte);
  d_bucket : list S3Object
}.

(** Nothing stored yet (always so for the table outside production, where
    the database is [:memory:]). *)
Definition fresh : Persisted := mkPersisted [] ∅ [].

(** The state of the process once [server.js] has been loaded: the storage
    is chosen, the session store is empty. *)
Definition start (env : gmap string string) (d : Persisted) : Process :=
  mkProcess env (select_storage env) ∅ (d_db d) (d_uploads d) (d_bucket d) [].

(** ** The upload middleware [multer({storage, limits, fileFilter})] *)

Definition fileSize_limit : N := 50 * 1024 * 1024.

Definition fileFilter (p : Part) : bool :=
  String.prefix "audio/" (mimetype p) || String.eqb (mimetype p) "video/webm".

(** [upload.single('audio')].  The filter is asked first; a refused part
    never reaches the storage engine.  A part let through is streamed to the
    engine: memoryStorage collects it as [buffer], diskStorage names the
    file [<uuid>.webm] and writes it into the uploads directory.  A part
    larger than [limits.fileSize] is refused with multer's LIMIT_FILE_SIZE
    error once the limit is hit; under diskStorage the file is by then
    open under its generated name (replacing a file of that name), and
    multer unlinks it again.
    [inl] is the error given to [next]; [inr] is [req.file]. *)
Definition upload_single (o : Oracle) (part : option Part) (p : Process)
  : (string + option MulterFile) * Process :=
  match part with
  | None => (inr None, p)
  | Some a =>
    if negb (fileFilter a) then (inl "Only audio files are allowed!", p)
    else if fileSize_limit <? byte_length a then
      match p_storage p, o_disk o with
      | MemoryStorage, _ => (inl "File too large", p)
      | DiskStorage, Some e => (inl e, p)
      | DiskStorage, None =>
        let uniqueName := o_uuid_name o +:+ ".webm" in
        (inl "File too large",
         with_trace (with_trace (with_unlink p uniqueName) (DiskWrite uniqueName))
                    (DiskUnlink uniqueName))
      end
    else match p_storage p with
         | MemoryStorage =>
           (inr (Some (mkFile (mimetype a) (byte_length a) (Some (content a)) None)), p)
         | DiskStorage =>
           match o_disk o with
           | Some e => (inl e, p)
           | None =>
             let uniqueName := o_uuid_name o +:+ ".webm" in
             (inr (Some (mkFile (mimetype a) (byte_length a) None (Some uniqueName))),
              with_trace (with_upload p uniqueName (content a)) (DiskWrite uniqueName))
           end
         end
  end.

(** The error-handling middleware at the end of the chain. *)
Definition error_middleware (error : string) (p : Process) : Response * Process :=
  (json 500 (JError "Something went wrong!"),
   with_trace p (ConsoleError "Application error:" error)).

(** ** Outcome reporter *)

Definition sendGradeToCanvas (o : Oracle) (ltiData : LtiSession) (grade : Q)
  (p : Process) : Process :=
  let p1 := with_trace p (GradeReport ltiData grade) in
  match o_outcome o with
  | OutcomeThrew m => with_trace p1 (ConsoleError "Error in sendGradeToCanvas:" m)
  | OutcomeErr m => with_trace p1 (ConsoleError "Error sending grade to Canvas:" m)
  | OutcomeOk => with_trace p1 (ConsoleLog "Grade sent successfully to Canvas")
  end.

(** ** sqlite *)

(** SQL [=] on nullable TEXT: a comparison with NULL is never true. *)
Definition sql_eq (a b : jsval) : bool :=
  match a, b with
  | Some x, Some y => String.eqb x y
  | _, _ => false
  end.

(** [db.run(INSERT ...)]: fails when sqlite reports an error or the
    primary key is taken; otherwise appends the row. *)
Definition db_run_insert (o : Oracle) (row : Submission) (db : list Submission)
  : option string * list Submission :=
  match o_db o with
  | Some e => (Some e, db)
  | None =>
    if existsb (fun r => String.eqb (id r) (id row)) db
    then (Some "SQLITE_CONSTRAINT: UNIQUE constraint failed: submissions.id", db)
    else (None, db ++ [row])
  end.

(** [db.get(SELECT * ... WHERE id = ? AND user_id = ?)] *)
Definition db_get (o : Oracle) (sid : string) (uid : jsval) (db : list Submission)
  : option string * option Submission :=
  match o_db o with
  | Some e => (Some e, None)
  | None => (None, find (fun r => String.eqb (id r) sid && sql_eq (user_id r) uid) db)
  end.

Definition summary (r : Submission) : Summary :=
  mkSummary (id r) (file_name r) (file_size r) (created_at r).

(** ORDER BY created_at DESC, rows of equal timestamp in table order. *)
Fixpoint insert_desc (r : Submission) (l : list Submission) : list Submission :=
  match l with
  | [] => [r]
  | x :: l' => if created_at x <=? created_at r then r :: l else x :: insert_desc r l'
  end.

Fixpoint order_by_created_desc (l : list Submission) : list Submission :=
  match l with
  | [] => []
  | r :: l' => insert_desc r (order_by_created_desc l')
  end.

Definition where_owner (s : LtiSession) (r : Submission) : bool :=
  sql_eq (user_id r) (userId s) && sql_eq (course_id r) (courseId s)
  && sql_eq (assignment_id r) (assignmentId s).

(** [db.all(SELECT id, file_name, file_size, created_at ... ORDER BY ...)] *)
Definition db_all (o : Oracle) (s : LtiSession) (db : list Submission)
  : option string * list Summary :=
  match o_db o with
  | Some e => (Some e, [])
  | None => (None, summary <$> order_by_created_desc (filter (fun r => where_owner s r = true) db))
  end.

(** ** Route handlers *)

(** [POST /launch]: on a valid signature the launch fields become the
    session bound to the request's session id.  The provider is built
    outside any [try]: what its constructor throws reaches the
    error-handling middleware. *)
Definition launch (o : Oracle) (sid : string) (body : gmap string string)
  (p : Process) : Response * Process :=
  match o_lti o with
  | LtiThrew m => error_middleware m p
  | LtiValid =>
    let lti := mkLti (body !! "user_id") (body !! "context_id")
                     (body !! "custom_canvas_assignment_id") (body !! "roles")
                     (body !! "lis_result_sourcedid")
                     (body !! "lis_outcome_service_url")
                     (body !! "oauth_consumer_key") in
    (mkResp 200 (SendFile "public/recorder.html"),
     with_trace (with_session p sid lti)
       (ConsoleLog ("LTI launch - User: " +:+ template (body !! "user_id")
                    +:+ ", Course: " +:+ template (body !! "context_id"))))
  | LtiErr m =>
    (mkResp 401 (Text "LTI authentication failed"),
     with_trace p (ConsoleError "LTI authentication failed:" m))
  | LtiInvalid =>
    (mkResp 401 (Text "LTI authentication failed"),
     with_trace p (ConsoleError "LTI authentication failed:" "null"))
  end.

(** [req.file.buffer && process.env.AWS_ACCESS_KEY_ID]: the buffer to send
    to S3 when the condition holds. *)
Definition s3_branch (env : gmap string string) (f : MulterFile)
  : option (list Byte.byte) :=
  match f_buffer f with
  | Some buf => if truthy (env !! "AWS_ACCESS_KEY_ID") then Some buf else None
  | None => None
  end.

(** The [try] block up to the INSERT.  [inl] is the message of a thrown
    exception (a missing [req.file], or the rejected S3 promise); [inr] is
    [(audioUrl, fileName, req.file.size)]. *)
Definition store_file (o : Oracle) (submissionId : string)
  (file : option MulterFile) (p : Process)
  : (string + (string * jsval * N)) * Process :=
  match file with
  | None => (inl "Cannot read properties of undefined (reading 'buffer')", p)
  | Some f =>
    match s3_branch (p_env p) f with
    | Some buf =>
      let fileName := "audio-" +:+ submissionId +:+ ".webm" in
      match o_s3 o with
      | S3Rejected m => (inl m, p)
      | S3Resolved loc =>
        (inr (loc, Some fileName, f_size f),
         with_trace
           (with_object p (mkObj (p_env p !! "S3_BUCKET_NAME")
                                 ("submissions/" +:+ fileName) buf
                                 "audio/webm" "public-read" loc))
           (S3Upload ("submissions/" +:+ fileName)))
      end
    | None =>
      (inr ("/uploads/" +:+ template (f_filename f), f_filename f, f_size f), p)
    end
  end.

(** The grade [sendGradeToCanvas] is called with. *)
Definition completion_grade : Q := 1 # 1.

(** The handler of [POST /upload-audio], run after [upload.single]. *)
Definition upload_handler (o : Oracle) (sid : string)
  (file : option MulterFile) (p : Process) : Response * Process :=
  match p_sessions p !! sid with
  | None => (json 401 (JError "Session expired. Please relaunch from Canvas."), p)
  | Some lti =>
    let submissionId := o_uuid_sub o in
    match store_file o submissionId file p with
    | (inl message, p1) =>
      (json 500 (JError ("Upload failed: " +:+ message)),
       with_trace p1 (ConsoleError "Upload error:" message))
    | (inr (audioUrl, fileName, size), p1) =>
      let row := mkRow submissionId (userId lti) (courseId lti) (assignmentId lti)
                       audioUrl fileName size None (o_now o) in
      match db_run_insert o row (p_db p1) with
      | (Some err, _) =>
        (json 500 (JError "Failed to save submission"),
         with_trace p1 (ConsoleError "Database error:" err))
      | (None, db') =>
        let p2 := with_trace (with_db p1 db') (DbInsert submissionId) in
        let p3 := if truthy (lisOutcomeServiceUrl lti)
                  then sendGradeToCanvas o lti completion_grade p2
                  else p2 in
        (json 200 (JUploaded true submissionId audioUrl
                             "Recording submitted successfully!"), p3)
      end
    end
  end.

(** [app.post('/upload-audio', upload.single('audio'), handler)]: an error
    of the middleware skips the handler and reaches the error middleware. *)
Definition post_upload_audio (o : Oracle) (sid : string) (audio : option Part)
  (p : Process) : Response * Process :=
  match upload_single o audio p with
  | (inl error, p1) => error_middleware error p1
  | (inr file, p1) => upload_handler o sid file p1
  end.

(** [GET /submission/:submissionId] *)
Definition get_submission (o : Oracle) (sid submissionId : string)
  (p : Process) : Response * Process :=
  match p_sessions p !! sid with
  | None => (json 401 (JError "Session expired"), p)
  | Some lti =>
    match db_get o submissionId (userId lti) (p_db p) with
    | (None, Some row) => (json 200 (JRow row), p)
    | _ => (json 404 (JError "Submission not found"), p)
    end
  end.

(** [GET /submissions] *)
Definition get_submissions (o : Oracle) (sid : string) (p : Process)
  : Response * Process :=
  match p_sessions p !! sid with
  | None => (json 401 (JError "Session expired"), p)
  | Some lti =>
    match db_all o lti (p_db p) with
    | (Some _, _) => (json 500 (JError "Database error"), p)
    | (None, rows) => (json 200 (JRows rows), p)
    end
  end.

(** ** The server as a whole *)

(** A request, with the id of the session the session layer attached to
    it ([req.sessionID]); the session store has an entry for it once a
    launch succeeded with that id. *)
Inductive Request :=
| PostLaunch (sid : string) (body : gmap string string)
| PostUploadAudio (sid : string) (audio : option Part)
| GetSubmission (sid submissionId : string)
| GetSubmissions (sid : string).

Definition handle (o : Oracle) (r : Request) (p : Process) : Response * Process :=
  match r with
  | PostLaunch sid body => launch o sid body p
  | PostUploadAudio sid audio => post_upload_audio o sid audio p
  | GetSubmission sid submissionId => get_submission o sid submissionId p
  | GetSubmissions sid => get_submissions o sid p
  end.

(** The process after serving the requests in order. *)
Fixpoint run (p : Process) (rs : list (Oracle * Request)) : Process :=
  match rs with
  | [] => p
  | (o, r) :: rs' => run (snd (handle o r p)) rs'
  end.


(** * Vocabulary of the properties *)

(** ** Stored files and the invariant *)

(** [url] serves [bytes]: either [/uploads/<name>] with that file in the
    uploads directory, or the location of an object in the bucket. *)
Definition stored_at (uploads : gmap string (list Byte.byte))
  (bucket : list S3Object) (url : string) (bytes : list Byte.byte) : Prop :=
  (∃ name, url = "/uploads/" +:+ name ∧ uploads !! name = Some bytes) ∨
  (∃ obj, obj ∈ bucket ∧ Location obj = url ∧ Body obj = bytes).

Definition has_file (p : Process) (r : Submission) : Prop :=
  ∃ bytes, stored_at (p_uploads p) (p_bucket p) (audio_url r) bytes.

(** The invariant of the server's state: the storage is the one selected
    from the environment, ids are unique (primary key), and every row's
    file is stored.  Requests keep it, short of an oversize upload
    being given the name of a file already there. *)
Record consistent (p : Process) : Prop := mkConsistent {
  cons_storage : p_storage p = select_storage (p_env p);
  cons_ids : NoDup (id <$> p_db p);
  cons_files : ∀ r, r ∈ p_db p → has_file p r
}.

(** The same of what was left by earlier runs. *)
Definition intact (d : Persisted) : Prop :=
  NoDup (id <$> d_db d) ∧
  ∀ r, r ∈ d_db d → ∃ bytes, stored_at (d_uploads d) (d_bucket d) (audio_url r) bytes.

(** [req.file], when present, is backed by the storage in use: a buffer
    only under memoryStorage, otherwise a file in the uploads directory. *)
Definition file_kept (p : Process) (f : MulterFile) : Prop :=
  match f_buffer f with
  | Some _ => p_storage p = MemoryStorage
  | None => ∃ name, f_filename f = Some name ∧ is_Some (p_uploads p !! name)
  end.

(** The storage backend in use does its part without error. *)
Definition storage_succeeds (st : Storage) (o : Oracle) : Prop :=
  match st with
  | DiskStorage => o_disk o = None
  | MemoryStorage => ∃ loc, o_s3 o = S3Resolved loc
  end.

(** The name diskStorage generates for this request is not taken in the
    uploads directory. *)
Definition name_fresh (o : Oracle) (p : Process) : Prop :=
  p_uploads p !! (o_uuid_name o +:+ ".webm") = None.

(** ** Effects *)

Definition is_store (e : Effect) : Prop :=
  match e with
  | DiskWrite _ | S3Upload _ => True
  | _ => False
  end.

Definition is_console (e : Effect) : bool :=
  match e with
  | ConsoleError _ _ | ConsoleLog _ => true
  | _ => false
  end.

(** The trace without what was only written to the console. *)
Fixpoint silent (t : list Effect) : list Effect :=
  match t with
  | [] => []
  | e :: t' => if is_console e then silent t' else e :: silent t'
  end.

(** The same oracle with another fate for the outcome call. *)
Definition with_outcome (o : Oracle) (r : OutcomeResult) : Oracle :=
  mkOracle (o_uuid_name o) (o_uuid_sub o) (o_disk o) (o_s3 o) (o_db o) (o_now o)
           r (o_lti o).

(** ** Ownership and order *)

(** The row carries the session's three identifiers. *)
Definition owned_by (s : LtiSession) (r : Submission) : Prop :=
  user_id r = userId s ∧ course_id r = courseId s ∧ assignment_id r = assignmentId s.

(** The launch supplied all three identifiers. *)
Definition identified (s : LtiSession) : Prop :=
  is_Some (userId s) ∧ is_Some (courseId s) ∧ is_Some (assignmentId s).

Definition newer_first (x y : Submission) : Prop := created_at y ≤ created_at x.

Definition newest_first (x y : Summary) : Prop := s_created_at y ≤ s_created_at x.

(** ** Sample data *)

Definition u1_session : LtiSession :=
  mkLti (Some "u1") (Some "c1") (Some "a1") (Some "Learner") (Some "r1")
        (Some "https://lms.example/outcomes") (Some "key").

Definition u1_launch : gmap string string :=
  list_to_map
    [("user_id", "u1"); ("context_id", "c1");
     ("custom_canvas_assignment_id", "a1"); ("roles", "Learner");
     ("lis_result_sourcedid", "r1");
     ("lis_outcome_service_url", "https://lms.example/outcomes");
     ("oauth_consumer_key", "key")].

(** A launch from a place that has no assignment: Canvas sends no
    [custom_canvas_assignment_id]. *)
Definition u2_launch : gmap string string :=
  list_to_map
    [("user_id", "u2"); ("context_id", "c1"); ("roles", "Learner");
     ("oauth_consumer_key", "key")].

(** Everything works. *)
Definition quiet : Oracle :=
  mkOracle "f0" "s0" None
           (S3Resolved "https://bucket.s3.amazonaws.com/submissions/audio-s0.webm")
           None 100 OutcomeOk LtiValid.

(** The database operation fails. *)
Definition busy : Oracle :=
  mkOracle "f1" "s1" None
           (S3Resolved "https://bucket.s3.amazonaws.com/submissions/audio-s1.webm")
           (Some "SQLITE_BUSY: database is locked") 200 OutcomeOk LtiValid.

Definition clip : Part := mkPart "audio/webm" [Byte.x1a; Byte.x45; Byte.xdf; Byte.xa3].

Definition note : Part := mkPart "text/plain" [Byte.x68; Byte.x69].

(** An audio file one byte over the limit. *)
Definition oversized : Part :=
  mkPart "audio/webm" (repeat Byte.x00 (N.to_nat (fileSize_limit + 1))).

Definition local_env : gmap string string := ∅.

Definition aws_env : gmap string string :=
  <["AWS_ACCESS_KEY_ID" := "AKIA"]> (<["AWS_SECRET_ACCESS_KEY" := "shh"]> ∅).

(** The requests served so far: one valid launch by [u1]. *)
Definition u1_launched : list (Oracle * Request) :=
  [(quiet, PostLaunch "sess1" u1_launch)].

Definition launched (env : gmap string string) : Process :=
  run (start env fresh) u1_launched.

(** A launch without assignment, then an upload. *)
Definition u2_uploaded : list (Oracle * Request) :=
  [(quiet, PostLaunch "sess2" u2_launch);
   (quiet, PostUploadAudio "sess2" (Some clip))].

(** * The browser recorder ([AudioRecorder], client side)

    The controller's fields and the properties of the page elements it
    reads or writes.  What the browser decides (whether the microphone is
    granted, whether [MediaRecorder] throws, what the server answers, the
    clock) is an argument of the method concerned.  The canvas visualizer
    and the rendering of the submissions list are not part of this state. *)

Record Recorder := mkRecorder {
  r_stream : bool;   (* this.stream is set *)
  r_mediaRecorder : bool;   (* this.mediaRecorder is set *)
  r_audioChunks : list (list Byte.byte);   (* this.audioChunks *)
  r_isRecording : bool;   (* this.isRecording *)
  r_startTime : Z;   (* this.startTime, milliseconds *)
  r_timerInterval : bool;   (* this.timerInterval is set *)
  r_ticking : nat;   (* intervals started and not cleared *)
  r_audioUrl : option string;   (* this.audioUrl *)
  recordBtn_disabled : bool;
  stopBtn_disabled : bool;
  playBtn_disabled : bool;
  submitBtn_disabled : bool;
  recordBtn_innerHTML : string;
  submitBtn_innerHTML : string;
  timer_textContent : string;
  status_textContent : string;
  status_className : string;
  audioPlayer_src : string
}.

Definition set_r_stream (v : bool) (r : Recorder) : Recorder :=
  mkRecorder v (r_mediaRecorder r) (r_audioChunks r) (r_isRecording r) (r_startTime r) (r_timerInterval r) (r_ticking r) (r_audioUrl r) (recordBtn_disabled r) (stopBtn_disabled r) (playBtn_disabled r) (submitBtn_disabled r) (recordBtn_innerHTML r) (submitBtn_innerHTML r) (timer_textContent r) (status_textContent r) (status_className r) (audioPlayer_src r).

Definition set_r_mediaRecorder (v : bool) (r : Recorder) : Recorder :=
  mkRecorder (r_stream r) v (r_audioChunks r) (r_isRecording r) (r_startTime r) (r_timerInterval r) (r_ticking r) (r_audioUrl r) (recordBtn_disabled r) (stopBtn_disabled r) (playBtn_disabled r) (submitBtn_disabled r) (recordBtn_innerHTML r) (submitBtn_innerHTML r) (timer_textContent r) (status_textContent r) (status_className r) (audioPlayer_src r).

Definition set_r_audioChunks (v : list (list Byte.byte)) (r : Recorder) : Recorder :=
  mkRecorder (r_stream r) (r_mediaRecorder r) v (r_isRecording r) (r_startTime r) (r_timerInterval r) (r_ticking r) (r_audioUrl r) (recordBtn_disabled r) (stopBtn_disabled r) (playBtn_disabled r) (submitBtn_disabled r) (recordBtn_innerHTML r) (submitBtn_innerHTML r) (timer_textContent r) (status_textContent r) (status_className r) (audioPlayer_src r).

Definition set_r_isRecording (v : bool) (r : Recorder) : Recorder :=
  mkRecorder (r_stream r) (r_mediaRecorder r) (r_audioChunks r) v (r_startTime r) (r_timerInterval r) (r_ticking r) (r_audioUrl r) (recordBtn_disabled r) (stopBtn_disabled r) (playBtn_disabled r) (submitBtn_disabled r) (recordBtn_innerHTML r) (submitBtn_innerHTML r) (timer_textContent r) (status_textContent r) (status_className r) (audioPlayer_src r).

Definition set_r_startTime (v : Z) (r : Recorder) : Recorder :=
  mkRecorder (r_stream r) (r_mediaRecorder r) (r_audioChunks r) (r_isRecording r) v (r_timerInterval r) (r_ticking r) (r_audioUrl r) (recordBtn_disabled r) (stopBtn_disabled r) (playBtn_disabled r) (submitBtn_disabled r) (recordBtn_innerHTML r) (submitBtn_innerHTML r) (timer_textContent r) (status_textContent r) (status_className r) (audioPlayer_src r).

Definition set_r_timerInterval (v : bool) (r : Recorder) : Recorder :=
  mkRecorder (r_stream r) (r_mediaRecorder r) (r_audioChunks r) (r_isRecording r) (r_startTime r) v (r_ticking r) (r_audioUrl r) (recordBtn_disabled r) (stopBtn_disabled r) (playBtn_disabled r) (submitBtn_disabled r) (recordBtn_innerHTML r) (submitBtn_innerHTML r) (timer_textContent r) (status_textContent r) (status_className r) (audioPlayer_src r).

Definition set_r_ticking (v : nat) (r : Recorder) : Recorder :=
  mkRecorder (r_stream r) (r_mediaRecorder r) (r_audioChunks r) (r_isRecording r) (r_startTime r) (r_timerInterval r) v (r_audioUrl r) (recordBtn_disabled r) (stopBtn_disabled r) (playBtn_disabled r) (submitBtn_disabled r) (recordBtn_innerHTML r) (submitBtn_innerHTML r) (timer_textContent r) (status_textContent r) (status_className r) (audioPlayer_src r).

Definition set_r_audioUrl (v : option string) (r : Recorder) : Recorder :=
  mkRecorder (r_stream r) (r_mediaRecorder r) (r_audioChunks r) (r_isRecording r) (r_startTime r) (r_timerInterval r) (r_ticking r) v (recordBtn_disabled r) (stopBtn_disabled r) (playBtn_disabled r) (submitBtn_disabled r) (recordBtn_innerHTML r) (submitBtn_innerHTML r) (timer_textContent r) (status_textContent r) (status_className r) (audioPlayer_src r).

Definition set_recordBtn_disabled (v : bool) (r : Recorder) : Recorder :=
  mkRecorder (r_stream r) (r_mediaRecorder r) (r_audioChunks r) (r_isRecording r) (r_startTime r) (r_timerInterval r) (r_ticking r) (r_audioUrl r) v (stopBtn_disabled r) (playBtn_disabled r) (submitBtn_disabled r) (recordBtn_innerHTML r) (submitBtn_innerHTML r) (timer_textContent r) (status_textContent r) (status_className r) (audioPlayer_src r).

Definition set_stopBtn_disabled (v : bool) (r : Recorder) : Recorder :=
  mkRecorder (r_stream r) (r_mediaRecorder r) (r_audioChunks r) (r_isRecording r) (r_startTime r) (r_timerInterval r) (r_ticking r) (r_audioUrl r) (recordBtn_disabled r) v (playBtn_disabled r) (submitBtn_disabled r) (recordBtn_innerHTML r) (submitBtn_innerHTML r) (timer_textContent r) (status_textContent r) (status_className r) (audioPlayer_src r).

Definition set_playBtn_disabled (v : bool) (r : Recorder) : Recorder :=
  mkRecorder (r_stream r) (r_mediaRecorder r) (r_audioChunks r) (r_isRecording r) (r_startTime r) (r_timerInterval r) (r_ticking r) (r_audioUrl r) (recordBtn_disabled r) (stopBtn_disabled r) v (submitBtn_disabled r) (recordBtn_innerHTML r) (submitBtn_innerHTML r) (timer_textContent r) (status_textContent r) (status_className r) (audioPlayer_src r).

Definition set_submitBtn_disabled (v : bool) (r : Recorder) : Recorder :=
  mkRecorder (r_stream r) (r_mediaRecorder r) (r_audioChunks r) (r_isRecording r) (r_startTime r) (r_timerInterval r) (r_ticking r) (r_audioUrl r) (recordBtn_disabled r) (stopBtn_disabled r) (playBtn_disabled r) v (recordBtn_innerHTML r) (submitBtn_innerHTML r) (timer_textContent r) (status_textContent r) (status_className r) (audioPlayer_src r).

Definition set_recordBtn_innerHTML (v : string) (r : Recorder) : Recorder :=
  mkRecorder (r_stream r) (r_mediaRecorder r) (r_audioChunks r) (r_isRecording r) (r_startTime r) (r_timerInterval r) (r_ticking r) (r_audioUrl r) (recordBtn_disabled r) (stopBtn_disabled r) (playBtn_disabled r) (submitBtn_disabled r) v (submitBtn_innerHTML r) (timer_textContent r) (status_textContent r) (status_className r) (audioPlayer_src r).

Definition set_submitBtn_innerHTML (v : string) (r : Recorder) : Recorder :=
  mkRecorder (r_stream r) (r_mediaRecorder r) (r_audioChunks r) (r_isRecording r) (r_startTime r) (r_timerInterval r) (r_ticking r) (r_audioUrl r) (recordBtn_disabled r) (stopBtn_disabled r) (playBtn_disabled r) (submitBtn_disabled r) (recordBtn_innerHTML r) v (timer_textContent r) (status_textContent r) (status_className r) (audioPlayer_src r).

Definition set_timer_textContent (v : string) (r : Recorder) : Recorder :=
  mkRecorder (r_stream r) (r_mediaRecorder r) (r_audioChunks r) (r_isRecording r) (r_startTime r) (r_timerInterval r) (r_ticking r) (r_audioUrl r) (recordBtn_disabled r) (stopBtn_disabled r) (playBtn_disabled r) (submitBtn_disabled r) (recordBtn_innerHTML r) (submitBtn_innerHTML r) v (status_textContent r) (status_className r) (audioPlayer_src r).

Definition set_status_textContent (v : string) (r : Recorder) : Recorder :=
  mkRecorder (r_stream r) (r_mediaRecorder r) (r_audioChunks r) (r_isRecording r) (r_startTime r) (r_timerInterval r) (r_ticking r) (r_audioUrl r) (recordBtn_disabled r) (stopBtn_disabled r) (playBtn_disabled r) (submitBtn_disabled r) (recordBtn_innerHTML r) (submitBtn_innerHTML r) (timer_textContent r) v (status_className r) (audioPlayer_src r).

Definition set_status_className (v : string) (r : Recorder) : Recorder :=
  mkRecorder (r_stream r) (r_mediaRecorder r) (r_audioChunks r) (r_isRecording r) (r_startTime r) (r_timerInterval r) (r_ticking r) (r_audioUrl r) (recordBtn_disabled r) (stopBtn_disabled r) (playBtn_disabled r) (submitBtn_disabled r) (recordBtn_innerHTML r) (submitBtn_innerHTML r) (timer_textContent r) (status_textContent r) v (audioPlayer_src r).

Definition set_audioPlayer_src (v : string) (r : Recorder) : Recorder :=
  mkRecorder (r_stream r) (r_mediaRecorder r) (r_audioChunks r) (r_isRecording r) (r_startTime r) (r_timerInterval r) (r_ticking r) (r_audioUrl r) (recordBtn_disabled r) (stopBtn_disabled r) (playBtn_disabled r) (submitBtn_disabled r) (recordBtn_innerHTML r) (submitBtn_innerHTML r) (timer_textContent r) (status_textContent r) (status_className r) v.

(** The double-quote character of the page's texts. *)
Definition dq : string := String (Ascii.ascii_of_nat 34) EmptyString.

Definition label_start_recording : string := "ðŸŽ¤ Start Recording".

Definition label_submit : string := "ðŸ“¤ Submit Recording".

Definition label_submitting : string := "â³ Submitting...".

Definition text_submitted : string := "âœ… Recording submitted successfully!".

Definition text_submission_failed : string := "âŒ Submission failed: ".

Definition html_recording : string :=
  "<span class=" +:+ dq +:+ "recording-indicator" +:+ dq +:+ "></span>Recording...".

(** [showStatus(message, type)] *)
Definition showStatus (message type : string) (r : Recorder) : Recorder :=
  set_status_className ("status status-" +:+ type) (set_status_textContent message r).

(** The timeout [showStatus] arms for a success message, five seconds on:
    the message is cleared if it is still the one shown. *)
Definition statusTimeout (message : string) (r : Recorder) : Recorder :=
  if String.eqb (status_textContent r) message
  then set_status_className "status" (set_status_textContent "" r)
  else r.

(** [requestMicrophone]: [getUserMedia] resolves ([None]) or rejects with
    an error message. *)
Definition requestMicrophone (denied : option string) (r : Recorder) : Recorder :=
  match denied with
  | None =>
    showStatus ("Microphone ready! Click " +:+ dq +:+ "Start Recording" +:+ dq +:+ " to begin.")
               "info" (set_recordBtn_disabled false (set_r_stream true r))
  | Some message => showStatus ("Error accessing microphone: " +:+ message) "error" r
  end.

(** ** Timer *)

(** [n.toString()] of an integer. *)
Definition toString (n : Z) : string := pretty n.

Fixpoint zeros (n : nat) : string :=
  match n with
  | O => ""
  | S n' => "0" +:+ zeros n'
  end.

(** [s.padStart(targetLength, '0')] *)
Definition padStart (targetLength : nat) (s : string) : string :=
  zeros (targetLength - String.length s) +:+ s.

(** The text the interval callback computes from [Date.now()]:
    [Math.floor] of a quotient by a positive number is [Z.div], the
    remainder operator keeps the sign of the dividend ([Z.rem]). *)
Definition timer_text (startTime now : Z) : string :=
  let elapsed := ((now - startTime) / 1000)%Z in
  let minutes := padStart 2 (toString (elapsed / 60)%Z) in
  let seconds := padStart 2 (toString (Z.rem elapsed 60)) in
  minutes +:+ ":" +:+ seconds.

(** One run of the interval callback. *)
Definition tick (now : Z) (r : Recorder) : Recorder :=
  set_recordBtn_innerHTML html_recording
    (set_timer_textContent (timer_text (r_startTime r) now) r).

Definition startTimer (now : Z) (r : Recorder) : Recorder :=
  set_r_ticking (S (r_ticking r)) (set_r_timerInterval true (set_r_startTime now r)).

Definition stopTimer (r : Recorder) : Recorder :=
  set_recordBtn_innerHTML label_start_recording
    (if r_timerInterval r
     then set_r_timerInterval false (set_r_ticking (pred (r_ticking r)) r)
     else r).

(** ** Recording *)

(** What [new MediaRecorder(...)] and [mediaRecorder.start(100)] do. *)
Inductive StartOutcome :=
| ConstructorThrows (message : string)
| StartThrows (message : string)
| Started.

Definition startRecording (o : StartOutcome) (now : Z) (r : Recorder) : Recorder :=
  if negb (r_stream r)
  then showStatus "Microphone not available. Please refresh the page." "error" r
  else
    let r1 := set_r_audioChunks [] r in
    match o with
    | ConstructorThrows message =>
      showStatus ("Error starting recording: " +:+ message) "error" r1
    | StartThrows message =>
      showStatus ("Error starting recording: " +:+ message) "error"
                 (set_r_mediaRecorder true r1)
    | Started =>
      showStatus ("Recording... Click " +:+ dq +:+ "Stop Recording" +:+ dq +:+ " when finished.")
                 "info"
        (set_submitBtn_disabled true
           (set_playBtn_disabled true
              (set_stopBtn_disabled false
                 (set_recordBtn_disabled true
                    (startTimer now
                       (set_r_isRecording true (set_r_mediaRecorder true r1)))))))
    end.

(** [stopRecording]; [throws] tells whether [mediaRecorder.stop()] throws. *)
Definition stopRecording (throws : bool) (r : Recorder) : Recorder :=
  if r_mediaRecorder r && r_isRecording r
  then if throws
       then showStatus "Error stopping recording" "error" r
       else set_stopBtn_disabled true
              (set_recordBtn_disabled false (stopTimer (set_r_isRecording false r)))
  else r.

(** [mediaRecorder.ondataavailable] *)
Definition ondataavailable (data : list Byte.byte) (r : Recorder) : Recorder :=
  if (0 <? length data)%nat
  then set_r_audioChunks (r_audioChunks r ++ [data]) r
  else r.

(** [mediaRecorder.onstop]; [url] is what [URL.createObjectURL] returns. *)
Definition onstop (url : string) (r : Recorder) : Recorder :=
  showStatus "Recording completed! You can play it back or submit." "success"
    (set_submitBtn_disabled false
       (set_playBtn_disabled false
          (set_audioPlayer_src url (set_r_audioUrl (Some url) r)))).

(** [mediaRecorder.onerror] *)
Definition onerror (error : string) (throws : bool) (r : Recorder) : Recorder :=
  stopRecording throws (showStatus ("Recording error: " +:+ error) "error" r).

(** The [visibilitychange] listener. *)
Definition visibilitychange (hidden throws : bool) (r : Recorder) : Recorder :=
  if hidden && r_isRecording r
  then showStatus "Recording stopped because tab became inactive" "info"
                  (stopRecording throws r)
  else r.

(** [playRecording]; [failed] is the message of a rejected [play()]. *)
Definition playRecording (failed : option string) (r : Recorder) : Recorder :=
  if String.eqb (audioPlayer_src r) "" then r
  else match failed with
       | Some message => showStatus ("Playback failed: " +:+ message) "error" r
       | None => r
       end.

Definition resetRecorder (r : Recorder) : Recorder :=
  set_r_isRecording false
    (set_timer_textContent "00:00"
       (set_submitBtn_innerHTML label_submit
          (set_submitBtn_disabled true
             (set_playBtn_disabled true
                (set_audioPlayer_src "" (set_r_audioChunks [] r)))))).

(** ** Submission *)

(** The client's own size bound. *)
Definition client_size_limit : N := 50 * 1024 * 1024.

(** [new Blob(this.audioChunks, { type: 'audio/webm' })], as the part it
    becomes in the form data. *)
Definition audioBlob (r : Recorder) : Part := mkPart "audio/webm" (concat (r_audioChunks r)).

(** What [fetch] and [response.json()] give: a rejection, or the parsed
    body. *)
Inductive FetchResult :=
| FetchFailed (message : string)
| FetchJson (result : Payload).

(** [result.success] and [result.error] of a parsed body. *)
Definition result_success (b : Payload) : bool :=
  match b with
  | JUploaded success _ _ _ => success
  | _ => false
  end.

Definition result_error (b : Payload) : jsval :=
  match b with
  | JError error => Some error
  | _ => None
  end.

(** [submitRecording] up to the [await fetch]: the guards, then the
    request that is sent, if any. *)
Definition submit_begin (r : Recorder) : Recorder * option Part :=
  if (length (r_audioChunks r) =? 0)%nat
  then (showStatus "No recording to submit" "error" r, None)
  else if client_size_limit <? byte_length (audioBlob r)
  then (showStatus "Recording too large. Please record a shorter audio." "error" r, None)
  else (showStatus "Submitting your recording..." "info"
          (set_submitBtn_innerHTML label_submitting (set_submitBtn_disabled true r)),
        Some (audioBlob r)).

Definition submission_failed (message : string) (r : Recorder) : Recorder :=
  set_submitBtn_innerHTML label_submit
    (set_submitBtn_disabled false
       (showStatus (text_submission_failed +:+ message) "error" r)).

(** [submitRecording] from the answer on. *)
Definition submit_end (answer : FetchResult) (r : Recorder) : Recorder :=
  match answer with
  | FetchFailed message => submission_failed message r
  | FetchJson result =>
    if result_success result
    then
      let r1 := resetRecorder (showStatus text_submitted "success" r) in
      if truthy (r_audioUrl r1) then set_r_audioUrl None r1 else r1
    else submission_failed
           (if truthy (result_error result) then template (result_error result)
            else "Submission failed") r
  end.

(** [submitRecording] when nothing else happens meanwhile. *)
Definition submitRecording (fetch : Part → FetchResult) (r : Recorder) : Recorder :=
  match submit_begin r with
  | (r1, Some part) => submit_end (fetch part) r1
  | (r1, None) => r1
  end.

(** The browser talking to the server: the body of the answer of
    [POST /upload-audio], which is always JSON. *)
Definition upload_fetch (o : Oracle) (sid : string) (p : Process) (part : Part)
  : FetchResult :=
  FetchJson (payload (fst (post_upload_audio o sid (Some part) p))).

(** What can happen to the recorder. *)
Inductive Event :=
| Microphone (denied : option string)
| ClickRecord (o : StartOutcome) (now : Z)
| ClickStop (throws : bool)
| DataAvailable (data : list Byte.byte)
| RecorderStopped (url : string)
| RecorderError (error : string) (throws : bool)
| ClickPlay (failed : option string)
| SubmitBegin
| SubmitEnd (answer : FetchResult)
| Tick (now : Z)
| VisibilityChange (hidden throws : bool)
| StatusTimeout (message : string).

Definition react (e : Event) (r : Recorder) : Recorder :=
  match e with
  | Microphone denied => requestMicrophone denied r
  | ClickRecord o now => startRecording o now r
  | ClickStop throws => stopRecording throws r
  | DataAvailable data => ondataavailable data r
  | RecorderStopped url => onstop url r
  | RecorderError error throws => onerror error throws r
  | ClickPlay failed => playRecording failed r
  | SubmitBegin => fst (submit_begin r)
  | SubmitEnd answer => submit_end answer r
  | Tick now => tick now r
  | VisibilityChange hidden throws => visibilitychange hidden throws r
  | StatusTimeout message => statusTimeout message r
  end.

Fixpoint reacts (es : list Event) (r : Recorder) : Recorder :=
  match es with
  | [] => r
  | e :: es' => reacts es' (react e r)
  end.

(** A recorder with a finished two-chunk clip, ready to submit. *)
Definition with_clip : Recorder :=
  mkRecorder true true [[Byte.x1a; Byte.x45]; [Byte.xdf; Byte.xa3]] false 0 false 0
             (Some "blob:1") false true false false label_start_recording
             label_submit "00:02" "" "status" "blob:1".

(** Every chunk kept holds at least one byte. *)
Definition chunks_nonempty (r : Recorder) : Prop :=
  Forall (λ chunk, chunk ≠ []) (r_audioChunks r).

(** The size of the clip, in bytes. *)
Definition clip_size (r : Recorder) : N := N.of_nat (length (concat (r_audioChunks r))).

(** ** Runs of requests *)

(** A launch whose signature the provider accepts. *)
Definition valid_launch (x : Oracle * Request) : Prop :=
  match snd x with
  | PostLaunch _ _ => o_lti (fst x) = LtiValid
  | _ => False
  end.

(** Every upload of the run gets a file name that is new in the uploads
    directory at that time. *)
Fixpoint names_fresh (p : Process) (rs : list (Oracle * Request)) : Prop :=
  match rs with
  | [] => True
  | (o, r) :: rs' =>
    match r with
    | PostUploadAudio _ _ => name_fresh o p
    | _ => True
    end ∧ names_fresh (snd (handle o r p)) rs'
  end.

(** The provider rejects the signature. *)
Definition forged : Oracle :=
  mkOracle "f2" "s2" None (S3Rejected "AccessDenied") None 300 OutcomeOk
           (LtiErr "Invalid Signature").

(** The provider cannot be built. *)
Definition unbuilt : Oracle :=
  mkOracle "f3" "s3" None (S3Rejected "AccessDenied") None 400 OutcomeOk
           (LtiThrew "provider not constructed").

(** * Properties *)

(** ** The handlers on sample requests *)

Example fileFilter_samples :
  fileFilter clip = true ∧ fileFilter note = false ∧
  fileFilter (mkPart "video/webm" []) = true ∧
  fileFilter (mkPart "video/mp4" []) = false ∧
  fileFilter (mkPart "audio" []) = false.
Proof. repeat split. Qed.

Example select_storage_samples :
  select_storage local_env = DiskStorage ∧
  select_storage aws_env = MemoryStorage ∧
  select_storage (<["AWS_ACCESS_KEY_ID" := "AKIA"]> ∅) = DiskStorage ∧
  select_storage (<["AWS_ACCESS_KEY_ID" := ""]> aws_env) = DiskStorage.
Proof. repeat split. Qed.

Example upload_local_sample :
  fst (post_upload_audio quiet "sess1" (Some clip) (launched local_env))
    = json 200 (JUploaded true "s0" "/uploads/f0.webm" "Recording submitted successfully!") ∧
  p_db (snd (post_upload_audio quiet "sess1" (Some clip) (launched local_env)))
    = [mkRow "s0" (Some "u1") (Some "c1") (Some "a1") "/uploads/f0.webm"
             (Some "f0.webm") 4 None 100] ∧
  p_trace (snd (post_upload_audio quiet "sess1" (Some clip) (launched local_env)))
    = [ConsoleLog "LTI launch - User: u1, Course: c1";
       DiskWrite "f0.webm"; DbInsert "s0"; GradeReport u1_session (1 # 1);
       ConsoleLog "Grade sent successfully to Canvas"].
Proof. repeat split. Qed.

Example upload_s3_sample :
  fst (post_upload_audio quiet "sess1" (Some clip) (launched aws_env))
    = json 200 (JUploaded true "s0"
                  "https://bucket.s3.amazonaws.com/submissions/audio-s0.webm"
                  "Recording submitted successfully!") ∧
  Key <$> p_bucket (snd (post_upload_audio quiet "sess1" (Some clip) (launched aws_env)))
    = ["submissions/audio-s0.webm"].
Proof. repeat split. Qed.

Example upload_without_file_sample :
  fst (post_upload_audio quiet "sess1" None (launched local_env))
    = json 500 (JError "Upload failed: Cannot read properties of undefined (reading 'buffer')").
Proof. reflexivity. Qed.

Example list_sample :
  fst (get_submissions quiet "sess1"
         (run (launched local_env)
              [(quiet, PostUploadAudio "sess1" (Some clip));
               (mkOracle "f1" "s1" None (o_s3 quiet) None 160 OutcomeOk LtiValid,
                PostUploadAudio "sess1" (Some clip))]))
    = json 200 (JRows [mkSummary "s1" (Some "f1.webm") 4 160;
                       mkSummary "s0" (Some "f0.webm") 4 100]).
Proof. reflexivity. Qed.

(** Two submissions within the same second are listed in table order. *)
Example list_same_second :
  fst (get_submissions quiet "sess1"
         (run (launched local_env)
              [(quiet, PostUploadAudio "sess1" (Some clip));
               (mkOracle "f1" "s1" None (o_s3 quiet) None 100 OutcomeOk LtiValid,
                PostUploadAudio "sess1" (Some clip))]))
    = json 200 (JRows [mkSummary "s0" (Some "f0.webm") 4 100;
                       mkSummary "s1" (Some "f1.webm") 4 100]).
Proof. reflexivity. Qed.

(** An unbuildable provider ends the launch in the error middleware. *)
Example launch_unbuilt_sample :
  fst (launch unbuilt "sess9" u1_launch (start local_env fresh))
    = json 500 (JError "Something went wrong!").
Proof. reflexivity. Qed.

(** ** JavaScript and SQL comparisons *)

Lemma truthy_true (v : jsval) : truthy v = true ↔ ∃ s, v = Some s ∧ s ≠ "".
Proof.
  destruct v as [s|]; simpl.
  - rewrite negb_true_iff. split.
    + intros H. exists s. split; [done|]. intros ->. discriminate.
    + intros (s' & [= <-] & Hne). by apply String.eqb_neq.
  - split; [discriminate|]. by intros (s & ? & _).
Qed.

Lemma sql_eq_true (a b : jsval) :
  sql_eq a b = true ↔ ∃ s, a = Some s ∧ b = Some s.
Proof.
  destruct a as [x|], b as [y|]; simpl; split;
    try discriminate; try (intros (s & ? & ?); discriminate).
  - intros H%String.eqb_eq. subst. eauto.
  - intros (s & [= ->] & [= ->]). apply String.eqb_refl.
Qed.

Lemma where_owner_true (s : LtiSession) (r : Submission) :
  where_owner s r = true ↔ owned_by s r ∧ identified s.
Proof.
  unfold where_owner, owned_by, identified.
  rewrite !andb_true_iff, !sql_eq_true. split.
  - intros [[(u & -> & ->) (c & -> & ->)] (a & -> & ->)]. repeat split; by eexists.
  - intros [(Hu & Hc & Ha) ([u Hu'] & [c Hc'] & [a Ha'])].
    rewrite Hu, Hc, Ha, Hu', Hc', Ha'. repeat split; by eexists.
Qed.

Lemma select_storage_memory (env : gmap string string) :
  select_storage env = MemoryStorage ↔
  truthy (env !! "AWS_ACCESS_KEY_ID") = true ∧
  truthy (env !! "AWS_SECRET_ACCESS_KEY") = true.
Proof.
  unfold select_storage.
  destruct (truthy (env !! "AWS_ACCESS_KEY_ID")),
           (truthy (env !! "AWS_SECRET_ACCESS_KEY")); simpl;
    split; try done; intros [? ?]; done.
Qed.

(** ** Proof steps used throughout *)

(** Unfold the upload route down to its branches. *)
Ltac step_upload :=
  unfold post_upload_audio, upload_single, upload_handler, store_file, s3_branch,
    db_run_insert, error_middleware, sendGradeToCanvas;
  repeat (case_match; simpl in *; simplify_eq; try congruence).

(** Name the fields of a process whose storage is the one chosen from its
    environment, splitting on which one that is. *)
Ltac split_storage p Hcons Hkey :=
  let env := fresh "env" in
  let st := fresh "st" in
  let Hmem := fresh "Hmem" in
  destruct p as [env st ? ? ? ? ?]; simpl in Hcons;
  pose proof (select_storage_memory env) as Hmem;
  destruct (select_storage env) eqn:?; subst st;
  [ destruct Hmem as [Hmem _]; destruct (Hmem eq_refl) as [Hkey _]; clear Hmem
  | clear Hmem ].

(** Exhibit the effects added to the trace. *)
Ltac give_delta :=
  simpl;
  first [ exists []; split; [by rewrite app_nil_r|]
        | eexists; split; [rewrite <- ?app_assoc; simpl; reflexivity|] ].

(** Decide membership in an explicit list of effects. *)
Ltac split_elem H :=
  repeat (apply elem_of_cons in H as [H|H]; simplify_eq);
  try (by apply elem_of_nil in H).

(** ** The configuration never changes *)

Lemma handle_config (o : Oracle) (r : Request) (p : Process) :
  p_env (snd (handle o r p)) = p_env p ∧
  p_storage (snd (handle o r p)) = p_storage p.
Proof.
  destruct r; simpl; unfold launch, get_submission, get_submissions, db_get, db_all;
    [| step_upload | |]; repeat case_match; simplify_eq; done.
Qed.

Lemma run_config (rs : list (Oracle * Request)) (p : Process) :
  p_env (run p rs) = p_env p ∧ p_storage (run p rs) = p_storage p.
Proof.
  revert p. induction rs as [|[o r] rs IH]; intros p; simpl; [done|].
  destruct (IH (snd (handle o r p))) as [-> ->]. apply handle_config.
Qed.

(** ** Lists of rows *)

Lemma existsb_id_false (db : list Submission) (i : string) :
  existsb (λ r, String.eqb (id r) i) db = false → i ∉ id <$> db.
Proof.
  intros Hex Hin. apply list_elem_of_fmap in Hin as (r & -> & Hr).
  apply list_elem_of_In in Hr.
  assert (existsb (λ r0, String.eqb (id r0) (id r)) db = true) as Ht.
  { apply existsb_exists. exists r. split; [done|]. apply String.eqb_refl. }
  congruence.
Qed.

Lemma existsb_id_fresh (db : list Submission) (i : string) :
  (∀ r, r ∈ db → id r ≠ i) → existsb (λ r, String.eqb (id r) i) db = false.
Proof.
  intros Hfresh. apply not_true_is_false. intros Hex.
  apply existsb_exists in Hex as (r & Hr & Heq).
  apply String.eqb_eq in Heq. apply list_elem_of_In in Hr. by eapply Hfresh.
Qed.

Lemma unique_id (l : list Submission) (r r' : Submission) :
  NoDup (id <$> l) → r ∈ l → r' ∈ l → id r = id r' → r = r'.
Proof.
  induction l as [|x l IH]; simpl; intros Hnd Hr Hr' Hid.
  - by apply elem_of_nil in Hr.
  - apply NoDup_cons in Hnd as [Hx Hnd].
    apply elem_of_cons in Hr as [->|Hr]; apply elem_of_cons in Hr' as [->|Hr']; auto.
    + exfalso. apply Hx. rewrite Hid. by apply list_elem_of_fmap_2.
    + exfalso. apply Hx. rewrite <- Hid. by apply list_elem_of_fmap_2.
Qed.

Lemma summary_id (r r' : Submission) : summary r = summary r' → id r = id r'.
Proof. by intros [= ? _ _ _]. Qed.

Lemma silent_app (t1 t2 : list Effect) : silent (t1 ++ t2) = silent t1 ++ silent t2.
Proof.
  induction t1 as [|e t1 IH]; simpl; [done|].
  destruct (is_console e); simpl; by rewrite IH.
Qed.

(** ** ORDER BY created_at DESC *)

Section OrderBy.

Implicit Types (r : Submission) (l : list Submission).

Lemma insert_desc_perm r l : insert_desc r l ≡ₚ r :: l.
Proof.
  induction l as [|x l IH]; simpl; [done|].
  destruct (created_at x <=? created_at r); [done|].
  rewrite IH. apply Permutation_swap.
Qed.

Lemma order_by_created_desc_perm l : order_by_created_desc l ≡ₚ l.
Proof.
  induction l as [|x l IH]; simpl; [done|].
  by rewrite insert_desc_perm, IH.
Qed.

Lemma insert_desc_sorted r l :
  StronglySorted newer_first l → StronglySorted newer_first (insert_desc r l).
Proof.
  induction 1 as [|x l Hl IH Hx]; simpl.
  - repeat constructor.
  - destruct (created_at x <=? created_at r) eqn:Hcmp.
    + apply N.leb_le in Hcmp. constructor; [by constructor|].
      constructor; [unfold newer_first; lia|].
      eapply Forall_impl; [exact Hx|]. unfold newer_first. intros; simpl in *; lia.
    + apply N.leb_gt in Hcmp. constructor; [done|].
      rewrite insert_desc_perm. constructor; [unfold newer_first; lia|done].
Qed.

Lemma order_by_created_desc_sorted l :
  StronglySorted newer_first (order_by_created_desc l).
Proof.
  induction l as [|x l IH]; simpl; [constructor|by apply insert_desc_sorted].
Qed.

Lemma summaries_sorted l :
  StronglySorted newer_first l → StronglySorted newest_first (summary <$> l).
Proof.
  induction 1 as [|x l Hl IH Hx]; simpl; constructor; [done|].
  apply Forall_fmap. eapply Forall_impl; [exact Hx|]. done.
Qed.

End OrderBy.

(** ** What the upload middleware does *)

Lemma uploads_insert_keeps (m : gmap string (list Byte.byte)) k v name :
  is_Some (m !! name) → is_Some (<[k := v]> m !! name).
Proof.
  intros H. destruct (decide (k = name)) as [->|Hne].
  - rewrite lookup_insert_eq. by eexists.
  - by rewrite lookup_insert_ne.
Qed.

(** The middleware touches nothing but the uploads directory and the
    trace. *)
Lemma upload_single_frame (o : Oracle) (part : option Part) (p : Process) :
  let p' := snd (upload_single o part p) in
  p_env p' = p_env p ∧ p_storage p' = p_storage p ∧
  p_sessions p' = p_sessions p ∧ p_db p' = p_db p ∧ p_bucket p' = p_bucket p.
Proof.
  unfold upload_single. repeat case_match; simpl; repeat split; auto.
Qed.

(** No file of the directory is lost, unless an oversize part was written
    over it: the unlink that follows removes the file of that name. *)
Lemma upload_single_files (o : Oracle) (part : option Part) (p : Process) :
  (∀ a, part = Some a → fileSize_limit < byte_length a → name_fresh o p) →
  ∀ name, is_Some (p_uploads p !! name) →
          is_Some (p_uploads (snd (upload_single o part p)) !! name).
Proof.
  intros Hsafe name Hname. unfold upload_single.
  destruct part as [a|]; [|done].
  destruct (fileFilter a); simpl; [|done].
  destruct (fileSize_limit <? byte_length a) eqn:Hs.
  - apply N.ltb_lt in Hs. specialize (Hsafe a eq_refl Hs). unfold name_fresh in Hsafe.
    destruct (p_storage p); [done|]. destruct (o_disk o); [done|]. simpl.
    rewrite lookup_delete_ne; [done|].
    intros <-. rewrite Hsafe in Hname. by destruct Hname.
  - destruct (p_storage p); [done|]. destruct (o_disk o); [done|]. simpl.
    by apply uploads_insert_keeps.
Qed.

(** A part over the limit under disk storage: written, removed, refused. *)
Lemma oversize_disk_upload (o : Oracle) (sid : string) (a : Part) (p : Process) :
  fileFilter a = true → fileSize_limit < byte_length a →
  p_storage p = DiskStorage → o_disk o = None →
  post_upload_audio o sid (Some a) p =
    error_middleware "File too large"
      (with_trace (with_trace (with_unlink p (o_uuid_name o +:+ ".webm"))
                              (DiskWrite (o_uuid_name o +:+ ".webm")))
                  (DiskUnlink (o_uuid_name o +:+ ".webm"))).
Proof.
  intros Hf Hs%N.ltb_lt Hst Hdisk. unfold post_upload_audio, upload_single.
  by rewrite Hf, Hs, Hst, Hdisk.
Qed.

Lemma oversized_length : byte_length oversized = fileSize_limit + 1.
Proof.
  unfold byte_length, oversized. cbn [content].
  rewrite repeat_length. apply N2Nat.id.
Qed.

(** What [req.file] looks like when the middleware lets a file through. *)
Lemma upload_single_file (o : Oracle) (a : Part) (p p' : Process) (f : MulterFile) :
  upload_single o (Some a) p = (inr (Some f), p') →
  fileFilter a = true ∧ byte_length a ≤ fileSize_limit ∧
  f_size f = byte_length a ∧
  match p_storage p with
  | MemoryStorage => f_buffer f = Some (content a) ∧ p' = p
  | DiskStorage =>
    f_buffer f = None ∧ f_filename f = Some (o_uuid_name o +:+ ".webm") ∧
    o_disk o = None ∧
    p' = with_trace (with_upload p (o_uuid_name o +:+ ".webm") (content a))
                    (DiskWrite (o_uuid_name o +:+ ".webm"))
  end.
Proof.
  unfold upload_single.
  destruct (fileFilter a) eqn:Hf; simpl; [|discriminate].
  destruct (fileSize_limit <? byte_length a) eqn:Hs.
  { destruct (p_storage p); [|destruct (o_disk o)]; discriminate. }
  apply N.ltb_ge in Hs.
  destruct (p_storage p); [|destruct (o_disk o)]; intros [= <- <-]; simpl;
    repeat split; auto.
Qed.

Lemma upload_single_kept (o : Oracle) (part : option Part) (p p' : Process)
  (f : MulterFile) :
  upload_single o part p = (inr (Some f), p') → file_kept p' f.
Proof.
  destruct part as [a|]; [|discriminate].
  intros H. pose proof (upload_single_file _ _ _ _ _ H) as (_ & _ & _ & Hst).
  unfold file_kept. destruct (p_storage p) eqn:Hp.
  - destruct Hst as [-> ->]. done.
  - destruct Hst as (-> & -> & _ & ->). eexists. split; [done|].
    simpl. rewrite lookup_insert_eq. by eexists.
Qed.

(** ** The invariant is kept *)

Lemma has_file_mono (p p' : Process) (r : Submission) :
  (∀ name, is_Some (p_uploads p !! name) → is_Some (p_uploads p' !! name)) →
  (∀ obj, obj ∈ p_bucket p → obj ∈ p_bucket p') →
  has_file p r → has_file p' r.
Proof.
  intros Hup Hbk [bytes [(name & Hurl & Hname)|(obj & Hobj & Hloc & _)]].
  - destruct (Hup name) as [bytes' Hb]; [by eexists|].
    exists bytes'. left. eauto.
  - exists (Body obj). right. exists obj. auto.
Qed.

Lemma consistent_start (env : gmap string string) (d : Persisted) :
  intact d → consistent (start env d).
Proof. intros [Hids Hfiles]. by split. Qed.

Lemma fresh_intact : intact fresh.
Proof. split; simpl; [constructor|]. intros r Hr. by apply elem_of_nil in Hr. Qed.

Lemma consistent_with_trace (p : Process) (e : Effect) :
  consistent p → consistent (with_trace p e).
Proof. intros [Hs Hi Hf]. split; simpl; auto. Qed.

Lemma consistent_with_session (p : Process) (sid : string) (s : LtiSession) :
  consistent p → consistent (with_session p sid s).
Proof. intros [Hs Hi Hf]. split; simpl; auto. Qed.

Lemma consistent_with_object (p : Process) (obj : S3Object) :
  consistent p → consistent (with_object p obj).
Proof.
  intros [Hs Hi Hf]. split; simpl; auto.
  intros r Hr. eapply has_file_mono; [| |by apply Hf]; simpl; [done|].
  intros x Hx. apply elem_of_app. by left.
Qed.

(** Adding a row with an unused id whose file is stored. *)
Lemma consistent_with_row (p : Process) (row : Submission) :
  consistent p → id row ∉ id <$> p_db p → has_file p row →
  consistent (with_db p (p_db p ++ [row])).
Proof.
  intros [Hs Hi Hf] Hfresh Hrow. split; simpl; auto.
  - rewrite fmap_app. apply NoDup_app. split; [done|]. split.
    + intros x Hx Hx'. apply list_elem_of_singleton in Hx'. by subst.
    + apply NoDup_singleton.
  - intros r [Hr|Hr%list_elem_of_singleton]%elem_of_app.
    + destruct (Hf r Hr) as [b Hb]. by exists b.
    + subst. destruct Hrow as [b Hb]. by exists b.
Qed.

Lemma grade_consistent (o : Oracle) (lti : LtiSession) (p : Process) :
  consistent p →
  consistent (if truthy (lisOutcomeServiceUrl lti)
              then sendGradeToCanvas o lti completion_grade p else p).
Proof.
  intros Hp. destruct (truthy _); [|done]. unfold sendGradeToCanvas.
  destruct (o_outcome o); by repeat apply consistent_with_trace.
Qed.

Lemma upload_handler_consistent (o : Oracle) (sid : string)
  (file : option MulterFile) (p : Process) :
  consistent p → (∀ f, file = Some f → file_kept p f) →
  consistent (snd (upload_handler o sid file p)).
Proof.
  intros Hc Hfile. unfold upload_handler.
  destruct (p_sessions p !! sid) as [lti|]; [|done].
  destruct file as [f|]; simpl; [|by apply consistent_with_trace].
  specialize (Hfile f eq_refl). unfold file_kept in Hfile.
  unfold s3_branch. destruct (f_buffer f) as [buf|] eqn:Hbuf.
  - rewrite (cons_storage _ Hc) in Hfile.
    apply select_storage_memory in Hfile as [-> _].
    destruct (o_s3 o) as [loc|m]; [|by apply consistent_with_trace].
    unfold db_run_insert. destruct (o_db o); simpl.
    { by apply consistent_with_trace, consistent_with_trace, consistent_with_object. }
    destruct (existsb _ _) eqn:Hex; simpl.
    { by apply consistent_with_trace, consistent_with_trace, consistent_with_object. }
    apply grade_consistent, consistent_with_trace.
    apply (consistent_with_row (with_trace (with_object p _) _)).
    + by apply consistent_with_trace, consistent_with_object.
    + apply existsb_id_false. exact Hex.
    + exists buf. right. eexists. split.
      * apply elem_of_app. right. by apply list_elem_of_singleton.
      * done.
  - destruct Hfile as (name & Hname & Hup).
    unfold db_run_insert. destruct (o_db o); simpl.
    { by apply consistent_with_trace. }
    destruct (existsb _ _) eqn:Hex; simpl.
    { by apply consistent_with_trace. }
    apply grade_consistent, consistent_with_trace.
    apply consistent_with_row; [done|apply existsb_id_false; exact Hex|].
    destruct Hup as [bytes Hbytes]. exists bytes. left. exists name.
    simpl. by rewrite Hname.
Qed.

Lemma upload_single_consistent (o : Oracle) (audio : option Part) (p : Process) :
  consistent p →
  (∀ a, audio = Some a → fileSize_limit < byte_length a → name_fresh o p) →
  consistent (snd (upload_single o audio p)).
Proof.
  intros [Hcs Hci Hcf] Hsafe.
  destruct (upload_single_frame o audio p) as (He & Hs & _ & Hdb & Hbk).
  pose proof (upload_single_files o audio p Hsafe) as Hfiles.
  split; [congruence|congruence|].
  intros r Hr. rewrite Hdb in Hr. eapply has_file_mono; [done| |by apply Hcf].
  intros x. by rewrite Hbk.
Qed.

(** Every request keeps the invariant, as long as an oversize upload does
    not get the name of a file already there. *)
Lemma handle_consistent (o : Oracle) (r : Request) (p : Process) :
  consistent p →
  (∀ sid a, r = PostUploadAudio sid (Some a) → fileSize_limit < byte_length a →
            name_fresh o p) →
  consistent (snd (handle o r p)).
Proof.
  intros Hc Hsafe. destruct r as [sid body|sid audio|sid sub|sid]; simpl.
  - unfold launch, error_middleware. destruct (o_lti o); simpl;
      by repeat first [apply consistent_with_trace|apply consistent_with_session].
  - unfold post_upload_audio.
    assert (consistent (snd (upload_single o audio p))) as Hc1.
    { apply upload_single_consistent; [done|]. intros a ->. by apply (Hsafe sid). }
    destruct (upload_single o audio p) as [[e|file] p1] eqn:Hup; simpl in Hc1.
    + by apply consistent_with_trace.
    + apply upload_handler_consistent; [done|].
      intros f ->. by eapply upload_single_kept.
  - unfold get_submission. repeat case_match; done.
  - unfold get_submissions. repeat case_match; done.
Qed.

(** An upload whose file passes the size check keeps the invariant. *)
Lemma accepted_upload_consistent (o : Oracle) (sid : string) (a : Part) (p : Process) :
  consistent p → byte_length a ≤ fileSize_limit →
  consistent (snd (post_upload_audio o sid (Some a) p)).
Proof.
  intros Hc Hsize. apply (handle_consistent o (PostUploadAudio sid (Some a)) p Hc).
  intros sid' a' [= _ <-] Hbig. lia.
Qed.

Lemma run_consistent (rs : list (Oracle * Request)) (p : Process) :
  consistent p → names_fresh p rs → consistent (run p rs).
Proof.
  revert p. induction rs as [|[o r] rs IH]; intros p Hp Hfresh; simpl; [done|].
  destruct Hfresh as [Hr Hrs]. apply IH; [|done].
  apply handle_consistent; [done|]. by intros sid a ->.
Qed.

(** What one request does to the table: nothing, or one row with an id
    that was not in use. *)
Lemma handle_rows (o : Oracle) (r : Request) (p : Process) :
  p_db (snd (handle o r p)) = p_db p ∨
  ∃ row, p_db (snd (handle o r p)) = p_db p ++ [row] ∧ id row ∉ id <$> p_db p.
Proof.
  destruct r as [sid body|sid audio|sid sub|sid]; simpl.
  - left. unfold launch, error_middleware. by destruct (o_lti o).
  - destruct p as [env st sessions db uploads bucket trace].
    step_upload.
    all: first [ by left
               | right; eexists; split; [done|]; by apply existsb_id_false ].
  - left. unfold get_submission. by repeat case_match.
  - left. unfold get_submissions. by repeat case_match.
Qed.

Lemma run_ids (rs : list (Oracle * Request)) (p : Process) :
  NoDup (id <$> p_db p) → NoDup (id <$> p_db (run p rs)).
Proof.
  revert p. induction rs as [|[o r] rs IH]; intros p Hp; simpl; [done|].
  apply IH. destruct (handle_rows o r p) as [->|(row & -> & Hrow)]; [done|].
  rewrite fmap_app. apply NoDup_app. split; [done|]. split.
  - intros x Hx Hx'. apply list_elem_of_singleton in Hx'. by subst.
  - apply NoDup_singleton.
Qed.

Example launched_session (env : gmap string string) :
  p_sessions (launched env) !! "sess1" = Some u1_session.
Proof. reflexivity. Qed.

Example launched_consistent (env : gmap string string) : consistent (launched env).
Proof.
  apply run_consistent; [apply consistent_start, fresh_intact|].
  by repeat split.
Qed.

(** * Main results *)

(** ** Storage selection *)

(** C7. The storage backend is chosen once, when the process starts: it is
    the object store (multer's memoryStorage, then S3) exactly when both
    [AWS_ACCESS_KEY_ID] and [AWS_SECRET_ACCESS_KEY] are present in the
    environment with a non-empty value (what JavaScript takes as true),
    and the local disk otherwise.  Whatever was persisted before and
    whatever requests are served afterwards, the choice and the
    environment stay what they were at start, and every request that gets
    its file through the upload middleware takes the S3 branch of the
    handler exactly when the object store was chosen. *)
Theorem storage_selected_once_at_start (env : gmap string string)
  (d : Persisted) (rs : list (Oracle * Request)) :
  (select_storage env = MemoryStorage ↔
     (∃ k, env !! "AWS_ACCESS_KEY_ID" = Some k ∧ k ≠ "") ∧
     (∃ s, env !! "AWS_SECRET_ACCESS_KEY" = Some s ∧ s ≠ "")) ∧
  (select_storage env = DiskStorage ↔
     ¬ ((∃ k, env !! "AWS_ACCESS_KEY_ID" = Some k ∧ k ≠ "") ∧
        (∃ s, env !! "AWS_SECRET_ACCESS_KEY" = Some s ∧ s ≠ ""))) ∧
  p_storage (start env d) = select_storage env ∧
  p_storage (run (start env d) rs) = select_storage env ∧
  p_env (run (start env d) rs) = env ∧
  ∀ o part f p',
    upload_single o part (run (start env d) rs) = (inr (Some f), p') →
    (is_Some (s3_branch (p_env p') f) ↔ select_storage env = MemoryStorage).
Proof.
  pose proof (select_storage_memory env) as Hmem.
  destruct (run_config rs (start env d)) as [Henv Hst]. simpl in Henv, Hst.
  rewrite <- !truthy_true.
  split; [done|]. split.
  { rewrite <- Hmem. destruct (select_storage env); split; done. }
  split; [done|]. split; [done|]. split; [done|].
  intros o part f p' Hup.
  pose proof (upload_single_frame o part (run (start env d) rs)) as Hfr.
  rewrite Hup in Hfr. simpl in Hfr. destruct Hfr as (He & _).
  rewrite He, Henv.
  destruct part as [a|]; [|discriminate].
  apply upload_single_file in Hup as (_ & _ & _ & Hf).
  rewrite Hst in Hf. unfold s3_branch.
  destruct (select_storage env) eqn:Hsel.
  - destruct Hf as [-> _]. destruct Hmem as [Hmem _].
    destruct (Hmem eq_refl) as [-> _]. split; [done|]. by eexists.
  - destruct Hf as (-> & _). split; [|done]. by intros [? ?].
Qed.

Lemma storage_selected_once_at_start_witness :
  select_storage aws_env = MemoryStorage ∧
  p_storage (launched aws_env) = MemoryStorage ∧
  is_Some (s3_branch aws_env (mkFile "audio/webm" 4 (Some (content clip)) None)).
Proof.
  destruct (storage_selected_once_at_start aws_env fresh u1_launched)
    as (Hsel & _ & _ & Hrun & Henv & Hreq).
  assert (select_storage aws_env = MemoryStorage) as Hm.
  { apply Hsel. split; eexists; (split; [reflexivity|discriminate]). }
  split; [exact Hm|]. split; [unfold launched; by rewrite Hrun|].
  apply (Hreq quiet (Some clip) _ (launched aws_env)); [reflexivity|exact Hm].
Defined.

(** ** The upload middleware *)

(** C2, as stated, fails: under disk storage an audio file over the size
    limit is refused, yet the middleware has by then written it into the
    uploads directory under its generated name; the write is among the
    effects of the request, followed by the removal of the file. *)
Lemma oversize_upload_is_written_to_disk :
  fileFilter oversized = true ∧
  fileSize_limit < byte_length oversized ∧
  p_storage (launched local_env) = DiskStorage ∧
  fst (post_upload_audio quiet "sess1" (Some oversized) (launched local_env))
    = json 500 (JError "Something went wrong!") ∧
  DiskWrite (o_uuid_name quiet +:+ ".webm")
    ∈ p_trace (snd (post_upload_audio quiet "sess1" (Some oversized) (launched local_env))).
Proof.
  assert (fileSize_limit < byte_length oversized) as Hbig.
  { rewrite oversized_length. lia. }
  split; [reflexivity|]. split; [exact Hbig|]. split; [reflexivity|].
  rewrite (oversize_disk_upload quiet "sess1" oversized (launched local_env)
             eq_refl Hbig eq_refl eq_refl).
  split; [reflexivity|].
  unfold error_middleware, with_trace. cbn [snd p_trace].
  apply elem_of_app. left. apply elem_of_app. left. apply elem_of_app. right.
  apply list_elem_of_here.
Qed.

(** C2, amended.  With a working disk, the upload middleware hands the
    file to the handler if and only if its mimetype starts with [audio/]
    or is [video/webm] and it is at most 50 MiB long.  A file failing
    either check is answered by the error middleware; no row is inserted,
    nothing is put into the bucket, and nothing stays stored: every file
    of the uploads directory afterwards was there before, with the same
    bytes.  A file refused for its type is never written, and neither is
    an oversize file under memory storage: the directory is untouched and
    the only effect is the console line.  An oversize audio file under
    disk storage is written under its generated name and removed again:
    the directory is the one before without a file of that name (so it is
    unchanged when the name was new). *)
Theorem upload_accepted_iff_audio_and_small (o : Oracle) (sid : string)
  (a : Part) (p : Process) :
  (o_disk o = None →
   ((∃ f p', upload_single o (Some a) p = (inr (Some f), p')) ↔
    (String.prefix "audio/" (mimetype a) = true ∨ mimetype a = "video/webm") ∧
    N.of_nat (length (content a)) ≤ 50 * 1024 * 1024)) ∧
  (¬ ((String.prefix "audio/" (mimetype a) = true ∨ mimetype a = "video/webm") ∧
      N.of_nat (length (content a)) ≤ 50 * 1024 * 1024) →
   let res := post_upload_audio o sid (Some a) p in
   let name := o_uuid_name o +:+ ".webm" in
   fst res = json 500 (JError "Something went wrong!") ∧
   p_bucket (snd res) = p_bucket p ∧
   p_db (snd res) = p_db p ∧
   (∀ n bytes, p_uploads (snd res) !! n = Some bytes → p_uploads p !! n = Some bytes) ∧
   (p_uploads p !! name = None → p_uploads (snd res) = p_uploads p) ∧
   (fileFilter a = false ∨ p_storage p = MemoryStorage ∨ is_Some (o_disk o) →
      p_uploads (snd res) = p_uploads p ∧
      ∃ detail, p_trace (snd res) = p_trace p ++ [ConsoleError "Application error:" detail]) ∧
   (fileFilter a = true → p_storage p = DiskStorage → o_disk o = None →
      p_uploads (snd res) = delete name (p_uploads p) ∧
      p_trace (snd res) =
        p_trace p ++ [DiskWrite name; DiskUnlink name;
                      ConsoleError "Application error:" "File too large"])).
Proof.
  assert (fileFilter a = true ↔
          String.prefix "audio/" (mimetype a) = true ∨ mimetype a = "video/webm") as Hfilter.
  { unfold fileFilter. rewrite orb_true_iff, String.eqb_eq. done. }
  change (50 * 1024 * 1024) with fileSize_limit.
  change (N.of_nat (length (content a))) with (byte_length a).
  split.
  - intros Hdisk. split.
    + intros (f & p' & Hup). apply upload_single_file in Hup as (Hf & Hs & _).
      split; [by apply Hfilter|done].
    + intros [Hf%Hfilter Hs]. unfold upload_single. rewrite Hf, Hdisk. simpl.
      apply N.ltb_ge in Hs. rewrite Hs. destruct (p_storage p); eauto.
  - intros Hbad. cbv zeta. unfold post_upload_audio, upload_single.
    destruct (fileFilter a) eqn:Hf; simpl.
    + destruct (fileSize_limit <? byte_length a) eqn:Hs; simpl.
      * destruct (p_storage p) eqn:Hst; [|destruct (o_disk o) as [e|] eqn:Hdisk]; simpl.
        -- repeat split; eauto; done.
        -- repeat split; eauto; done.
        -- split; [done|]. split; [done|]. split; [done|]. split; [|split; [|split]].
           ++ intros n bytes Hn. apply lookup_delete_Some in Hn as [_ Hn]. exact Hn.
           ++ intros Hnew. by apply delete_id.
           ++ intros [?|[?|[? ?]]]; done.
           ++ intros _ _ _. split; [done|]. by rewrite <- !app_assoc.
      * exfalso. apply Hbad. apply N.ltb_ge in Hs. split; [by apply Hfilter|done].
    + repeat split; eauto; done.
Qed.

Lemma upload_accepted_iff_audio_and_small_witness :
  (∃ f p', upload_single quiet (Some clip) (launched local_env) = (inr (Some f), p')) ∧
  p_uploads (snd (post_upload_audio quiet "sess1" (Some note) (launched local_env)))
    = p_uploads (launched local_env) ∧
  p_db (snd (post_upload_audio quiet "sess1" (Some note) (launched local_env))) = [] ∧
  p_uploads (snd (post_upload_audio quiet "sess1" (Some oversized) (launched local_env)))
    = p_uploads (launched local_env) ∧
  p_db (snd (post_upload_audio quiet "sess1" (Some oversized) (launched local_env))) = [].
Proof.
  split; [|split; [|split]].
  - apply (upload_accepted_iff_audio_and_small quiet "sess1" clip (launched local_env));
      [reflexivity|].
    split; [left; reflexivity|]. vm_compute. discriminate.
  - destruct (upload_accepted_iff_audio_and_small quiet "sess1" note (launched local_env))
      as [_ Hbad].
    destruct Hbad as (_ & _ & _ & _ & Hu & _); [|by apply Hu].
    intros [[H|H] _]; vm_compute in H; discriminate.
  - destruct (upload_accepted_iff_audio_and_small quiet "sess1" note (launched local_env))
      as [_ Hbad].
    destruct Hbad as (_ & _ & Hd & _); [|exact Hd].
    intros [[H|H] _]; vm_compute in H; discriminate.
  - destruct (upload_accepted_iff_audio_and_small quiet "sess1" oversized
                (launched local_env)) as [_ Hbad].
    destruct Hbad as (_ & _ & Hd & _ & Hu & _).
    + intros [_ Hsmall]. change (N.of_nat (length (content oversized)))
        with (byte_length oversized) in Hsmall.
      rewrite oversized_length in Hsmall. change (50 * 1024 * 1024) with fileSize_limit in Hsmall.
      lia.
    + split; [apply Hu; reflexivity|exact Hd].
Defined.

(** ** Uploads without a session *)

(** C3, as stated, fails: an upload without a session whose file is
    refused by the middleware never reaches the session guard and is
    answered 500 by the error middleware. *)
Lemma upload_without_session_refused_file_is_500 :
  p_sessions (launched local_env) !! "nobody" = None ∧
  fst (post_upload_audio quiet "nobody" (Some note) (launched local_env))
    = json 500 (JError "Something went wrong!") ∧
  status (fst (post_upload_audio quiet "nobody" (Some note) (launched local_env))) ≠ 401.
Proof. vm_compute. repeat split; discriminate. Qed.

(** C3, amended.  For every upload request without an active session no
    metadata row is written.  When the request carries no file, or a file
    that passes the type and size checks (and, under disk storage, is
    written without error), the answer is 401 with the relaunch message;
    when the file fails a check the answer is the error middleware's 500. *)
Theorem upload_without_session (o : Oracle) (sid : string)
  (audio : option Part) (p : Process) :
  p_sessions p !! sid = None →
  let res := post_upload_audio o sid audio p in
  p_db (snd res) = p_db p ∧
  ((audio = None ∨
    ∃ a, audio = Some a ∧ fileFilter a = true ∧ byte_length a ≤ fileSize_limit ∧
         (p_storage p = DiskStorage → o_disk o = None)) →
   fst res = json 401 (JError "Session expired. Please relaunch from Canvas.")) ∧
  ((∃ a, audio = Some a ∧ (fileFilter a = false ∨ fileSize_limit < byte_length a)) →
   fst res = json 500 (JError "Something went wrong!")).
Proof.
  intros Hsess. simpl. split; [|split].
  - unfold post_upload_audio.
    pose proof (upload_single_frame o audio p) as Hfr.
    destruct (upload_single o audio p) as [[e|file] p1]; simpl in *.
    + by destruct Hfr as (_ & _ & _ & -> & _).
    + destruct Hfr as (_ & _ & Hs & Hdb & _).
      unfold upload_handler. by rewrite Hs, Hsess.
  - intros [->|(a & -> & Hf & Hsize & Hdisk)]; unfold post_upload_audio, upload_single.
    + simpl. unfold upload_handler. by rewrite Hsess.
    + rewrite Hf. apply N.ltb_ge in Hsize. rewrite Hsize. simpl.
      destruct (p_storage p).
      * unfold upload_handler. by rewrite Hsess.
      * rewrite Hdisk by done. unfold upload_handler. simpl. by rewrite Hsess.
  - intros (a & -> & Hbad). unfold post_upload_audio, upload_single.
    destruct (fileFilter a); simpl; [|done].
    destruct Hbad as [?|Hbig]; [done|]. apply N.ltb_lt in Hbig. rewrite Hbig.
    destruct (p_storage p); [done|]. by destruct (o_disk o).
Qed.

Lemma upload_without_session_witness :
  p_db (snd (post_upload_audio quiet "nobody" (Some clip) (launched local_env))) = [] ∧
  fst (post_upload_audio quiet "nobody" (Some clip) (launched local_env))
    = json 401 (JError "Session expired. Please relaunch from Canvas.").
Proof.
  destruct (upload_without_session quiet "nobody" (Some clip) (launched local_env))
    as (Hdb & H401 & _); [reflexivity|].
  split; [exact Hdb|]. apply H401. right. exists clip.
  repeat split; [vm_compute; discriminate].
Defined.

(** C10. With local disk storage the upload middleware runs before the
    session guard: an upload without an active session whose file passes
    the type and size checks is written to the uploads directory under
    the generated name [<uuid>.webm], and stays there, although the answer
    is 401 and no metadata row is written. *)
Theorem local_upload_without_session_leaves_file (o : Oracle) (sid : string)
  (a : Part) (p : Process) :
  p_storage p = DiskStorage →
  p_sessions p !! sid = None →
  fileFilter a = true → byte_length a ≤ fileSize_limit →
  o_disk o = None →
  let res := post_upload_audio o sid (Some a) p in
  fst res = json 401 (JError "Session expired. Please relaunch from Canvas.") ∧
  p_db (snd res) = p_db p ∧
  p_uploads (snd res) = <[o_uuid_name o +:+ ".webm" := content a]> (p_uploads p) ∧
  p_uploads (snd res) !! (o_uuid_name o +:+ ".webm") = Some (content a) ∧
  p_trace (snd res) = p_trace p ++ [DiskWrite (o_uuid_name o +:+ ".webm")].
Proof.
  intros Hst Hsess Hf Hsize Hdisk. simpl.
  unfold post_upload_audio, upload_single.
  rewrite Hf. apply N.ltb_ge in Hsize. rewrite Hsize. simpl.
  rewrite Hst, Hdisk. unfold upload_handler. simpl. rewrite Hsess. simpl.
  repeat split. by rewrite lookup_insert_eq.
Qed.

Lemma local_upload_without_session_leaves_file_witness :
  fst (post_upload_audio quiet "nobody" (Some clip) (launched local_env))
    = json 401 (JError "Session expired. Please relaunch from Canvas.") ∧
  p_uploads (snd (post_upload_audio quiet "nobody" (Some clip) (launched local_env)))
    !! "f0.webm" = Some (content clip).
Proof.
  destruct (local_upload_without_session_leaves_file quiet "nobody" clip
              (launched local_env))
    as (Hres & _ & _ & Hfile & _); try reflexivity.
  - vm_compute. discriminate.
  - split; [exact Hres|exact Hfile].
Defined.

(** ** Accepted uploads *)

(** The side effects of the outcome reporter leave stores and table alone. *)
Lemma grade_frame (o : Oracle) (lti : LtiSession) (p : Process) :
  let p' := if truthy (lisOutcomeServiceUrl lti)
            then sendGradeToCanvas o lti completion_grade p else p in
  p_db p' = p_db p ∧ p_uploads p' = p_uploads p ∧ p_bucket p' = p_bucket p ∧
  p_sessions p' = p_sessions p.
Proof.
  simpl. destruct (truthy _); [|done]. unfold sendGradeToCanvas.
  by destruct (o_outcome o).
Qed.

(** The run of the route on an accepted file when storage and database
    work: the response, the new table and where the bytes are. *)
Lemma accepted_upload_result (o : Oracle) (sid : string) (a : Part)
  (lti : LtiSession) (p : Process) :
  p_storage p = select_storage (p_env p) →
  p_sessions p !! sid = Some lti →
  fileFilter a = true → byte_length a ≤ fileSize_limit →
  storage_succeeds (p_storage p) o →
  o_db o = None → (∀ r, r ∈ p_db p → id r ≠ o_uuid_sub o) →
  ∃ url name p2,
    post_upload_audio o sid (Some a) p =
      (json 200 (JUploaded true (o_uuid_sub o) url "Recording submitted successfully!"),
       if truthy (lisOutcomeServiceUrl lti)
       then sendGradeToCanvas o lti completion_grade p2 else p2) ∧
    p_db p2 = p_db p ++ [mkRow (o_uuid_sub o) (userId lti) (courseId lti)
                               (assignmentId lti) url name (byte_length a)
                               None (o_now o)] ∧
    stored_at (p_uploads p2) (p_bucket p2) url (content a).
Proof.
  intros Hcons Hsess Hf Hsize Hstore Hdb Hfresh.
  apply existsb_id_fresh in Hfresh. apply N.ltb_ge in Hsize.
  split_storage p Hcons Hkey; simpl in *.
  all: unfold post_upload_audio, upload_single; rewrite Hf, Hsize; simpl.
  - destruct Hstore as [loc Hloc].
    unfold upload_handler, store_file, s3_branch, db_run_insert. simpl.
    rewrite Hsess, Hkey, Hloc, Hdb. simpl. rewrite Hfresh.
    eexists _, _, _. split; [reflexivity|]. simpl. split; [reflexivity|].
    right. eexists. split; [apply elem_of_app; right; by apply list_elem_of_singleton|done].
  - rewrite Hstore.
    unfold upload_handler, store_file, s3_branch, db_run_insert. simpl.
    rewrite Hsess, Hdb. simpl. rewrite Hfresh.
    eexists _, _, _. split; [reflexivity|]. simpl. split; [reflexivity|].
    left. exists (o_uuid_name o +:+ ".webm"). split; [reflexivity|].
    apply lookup_insert_eq.
Qed.

(** C1. For every accepted upload (active session, file passing the type
    and size checks, storage and database both succeeding), exactly one
    row is appended to the table; its [file_size] is the byte length of
    the uploaded file and its [user_id], [course_id] and [assignment_id]
    are the session's values; the response carries [success: true], the
    generated submission id and the URL under which the storage backend
    holds the uploaded bytes. *)
Theorem accepted_upload_inserts_one_row (o : Oracle) (sid : string) (a : Part)
  (lti : LtiSession) (p : Process) :
  consistent p →
  p_sessions p !! sid = Some lti →
  fileFilter a = true → byte_length a ≤ fileSize_limit →
  storage_succeeds (p_storage p) o →
  o_db o = None → (∀ r, r ∈ p_db p → id r ≠ o_uuid_sub o) →
  let res := post_upload_audio o sid (Some a) p in
  ∃ url name,
    fst res = json 200 (JUploaded true (o_uuid_sub o) url
                                  "Recording submitted successfully!") ∧
    p_db (snd res) =
      p_db p ++ [mkRow (o_uuid_sub o) (userId lti) (courseId lti) (assignmentId lti)
                       url name (N.of_nat (length (content a))) None (o_now o)] ∧
    stored_at (p_uploads (snd res)) (p_bucket (snd res)) url (content a).
Proof.
  intros Hc Hsess Hf Hsize Hstore Hdb Hfresh. cbv zeta.
  destruct (accepted_upload_result o sid a lti p (cons_storage _ Hc)
              Hsess Hf Hsize Hstore Hdb Hfresh)
    as (url & name & p2 & -> & Hrows & Hat).
  exists url, name. simpl.
  destruct (grade_frame o lti p2) as (Hd & Hu & Hb & _). simpl in Hd, Hu, Hb.
  split; [done|]. split; [by rewrite Hd|]. by rewrite Hu, Hb.
Qed.

Lemma accepted_upload_inserts_one_row_witness :
  ∃ url name,
    fst (post_upload_audio quiet "sess1" (Some clip) (launched aws_env))
      = json 200 (JUploaded true "s0" url "Recording submitted successfully!") ∧
    p_db (snd (post_upload_audio quiet "sess1" (Some clip) (launched aws_env)))
      = [mkRow "s0" (Some "u1") (Some "c1") (Some "a1") url name 4 None 100].
Proof.
  destruct (accepted_upload_inserts_one_row quiet "sess1" clip u1_session
              (launched aws_env))
    as (url & name & Hres & Hdb & _).
  - apply launched_consistent.
  - reflexivity.
  - reflexivity.
  - vm_compute. discriminate.
  - exists "https://bucket.s3.amazonaws.com/submissions/audio-s0.webm". reflexivity.
  - reflexivity.
  - intros r Hr. by apply elem_of_nil in Hr.
  - exists url, name. split; [exact Hres|exact Hdb].
Defined.

(** ** Sequencing of storage and insert *)

(** The effects of one upload request: an insert is immediately preceded
    by the storage of the file. *)
Lemma upload_effects (o : Oracle) (sid : string) (audio : option Part) (p : Process) :
  p_storage p = select_storage (p_env p) →
  ∃ delta, p_trace (snd (post_upload_audio o sid audio p)) = p_trace p ++ delta ∧
    ∀ i, DbInsert i ∈ delta →
      ∃ stored rest, delta = stored :: DbInsert i :: rest ∧ is_store stored.
Proof.
  intros Hcons. split_storage p Hcons Hkey.
  all: step_upload.
  all: give_delta.
  all: intros i Hi; split_elem Hi.
  all: by eexists _, _.
Qed.

(** A failing storage backend: a 500, no row, nothing stored. *)
Lemma storage_failure_short_circuits (o : Oracle) (sid : string) (a : Part)
  (lti : LtiSession) (p : Process) :
  p_storage p = select_storage (p_env p) →
  p_sessions p !! sid = Some lti →
  fileFilter a = true → byte_length a ≤ fileSize_limit →
  ¬ storage_succeeds (p_storage p) o →
  status (fst (post_upload_audio o sid (Some a) p)) = 500 ∧
  p_db (snd (post_upload_audio o sid (Some a) p)) = p_db p ∧
  p_uploads (snd (post_upload_audio o sid (Some a) p)) = p_uploads p ∧
  p_bucket (snd (post_upload_audio o sid (Some a) p)) = p_bucket p.
Proof.
  intros Hcons Hsess Hf Hsize Hfail. apply N.ltb_ge in Hsize.
  split_storage p Hcons Hkey; simpl in *.
  all: unfold post_upload_audio, upload_single; rewrite Hf, Hsize; simpl.
  - unfold upload_handler, store_file, s3_branch. simpl. rewrite Hsess, Hkey.
    destruct (o_s3 o) as [loc|m]; [|done]. exfalso. apply Hfail. by exists loc.
  - destruct (o_disk o); [done|]. by exfalso.
Qed.

(** The effects of an accepted upload when storage and database work: the
    file is stored, then the row is inserted, and what follows is neither. *)
Lemma accepted_upload_trace (o : Oracle) (sid : string) (a : Part)
  (lti : LtiSession) (p : Process) :
  p_storage p = select_storage (p_env p) →
  p_sessions p !! sid = Some lti →
  fileFilter a = true → byte_length a ≤ fileSize_limit →
  storage_succeeds (p_storage p) o →
  o_db o = None → (∀ r, r ∈ p_db p → id r ≠ o_uuid_sub o) →
  ∃ rest,
    p_trace (snd (post_upload_audio o sid (Some a) p)) =
      p_trace p ++
        match p_storage p with
        | DiskStorage => DiskWrite (o_uuid_name o +:+ ".webm")
        | MemoryStorage => S3Upload ("submissions/audio-" +:+ o_uuid_sub o +:+ ".webm")
        end :: DbInsert (o_uuid_sub o) :: rest ∧
    ∀ e, e ∈ rest → ¬ is_store e ∧ ∀ i, e ≠ DbInsert i.
Proof.
  intros Hcons Hsess Hf Hsize Hstore Hdb Hfresh.
  apply existsb_id_fresh in Hfresh. apply N.ltb_ge in Hsize.
  split_storage p Hcons Hkey; simpl in *.
  all: unfold post_upload_audio, upload_single; rewrite Hf, Hsize; simpl.
  - destruct Hstore as [loc Hloc].
    unfold upload_handler, store_file, s3_branch, db_run_insert. simpl.
    rewrite Hsess, Hkey, Hloc, Hdb. simpl. rewrite Hfresh.
    unfold sendGradeToCanvas.
    destruct (truthy (lisOutcomeServiceUrl lti)); [destruct (o_outcome o)|]; simpl.
    all: eexists; (split; [rewrite <- ?app_assoc; simpl; reflexivity|]).
    all: intros e He; split_elem He; (split; [by intros []|done]).
  - rewrite Hstore.
    unfold upload_handler, store_file, s3_branch, db_run_insert. simpl.
    rewrite Hsess, Hdb. simpl. rewrite Hfresh.
    unfold sendGradeToCanvas.
    destruct (truthy (lisOutcomeServiceUrl lti)); [destruct (o_outcome o)|]; simpl.
    all: eexists; (split; [rewrite <- ?app_assoc; simpl; reflexivity|]).
    all: intros e He; split_elem He; (split; [by intros []|done]).
Qed.

(** C4. For an accepted upload the file is stored before the row is
    inserted.  When the storage backend and the database succeed, the
    answer is 200 and the effects of the request begin with the disk write
    under the generated name (disk storage) or the S3 upload under
    [submissions/audio-<id>.webm] (object store), followed at once by the
    insert of the row with the generated id; nothing is stored or inserted
    after that.  In every case an insert among the effects comes right
    after the disk write or the S3 upload.  When the storage backend
    fails, the answer is 500 and no row is written.  No state in which a
    row lacks its stored file is committed: if every row had its file
    before the request, so it is after it, and after any further requests
    whose uploads get file names that are new. *)
Theorem storage_precedes_insert (o : Oracle) (sid : string) (a : Part)
  (lti : LtiSession) (p : Process) :
  consistent p →
  p_sessions p !! sid = Some lti →
  fileFilter a = true → byte_length a ≤ fileSize_limit →
  let res := post_upload_audio o sid (Some a) p in
  (storage_succeeds (p_storage p) o → o_db o = None →
   (∀ r, r ∈ p_db p → id r ≠ o_uuid_sub o) →
   status (fst res) = 200 ∧
   (∃ row, p_db (snd res) = p_db p ++ [row] ∧ id row = o_uuid_sub o ∧
           stored_at (p_uploads (snd res)) (p_bucket (snd res)) (audio_url row)
                     (content a)) ∧
   ∃ rest,
     p_trace (snd res) =
       p_trace p ++
         match p_storage p with
         | DiskStorage => DiskWrite (o_uuid_name o +:+ ".webm")
         | MemoryStorage => S3Upload ("submissions/audio-" +:+ o_uuid_sub o +:+ ".webm")
         end :: DbInsert (o_uuid_sub o) :: rest ∧
     ∀ e, e ∈ rest → ¬ is_store e ∧ ∀ i, e ≠ DbInsert i) ∧
  (∃ delta, p_trace (snd res) = p_trace p ++ delta ∧
     ∀ i, DbInsert i ∈ delta →
       ∃ stored rest, delta = stored :: DbInsert i :: rest ∧ is_store stored) ∧
  (¬ storage_succeeds (p_storage p) o →
     status (fst res) = 500 ∧ p_db (snd res) = p_db p) ∧
  (∀ r, r ∈ p_db (snd res) → has_file (snd res) r) ∧
  (∀ rs, names_fresh (snd res) rs →
         ∀ r, r ∈ p_db (run (snd res) rs) → has_file (run (snd res) rs) r).
Proof.
  intros Hc Hsess Hf Hsize res.
  pose proof (accepted_upload_consistent o sid a p Hc Hsize) as Hc'.
  split; [|split; [|split; [|split]]].
  - intros Hstore Hdb Hfresh.
    destruct (accepted_upload_result o sid a lti p (cons_storage _ Hc)
                Hsess Hf Hsize Hstore Hdb Hfresh)
      as (url & name & p2 & Hrun & Hrows & Hat).
    destruct (grade_frame o lti p2) as (Hd & Hu & Hb & _). simpl in Hd, Hu, Hb.
    split; [|split].
    + unfold res. by rewrite Hrun.
    + eexists. unfold res. rewrite Hrun. simpl. rewrite Hd, Hu, Hb.
      split; [exact Hrows|]. split; [reflexivity|exact Hat].
    + by apply (accepted_upload_trace o sid a lti p (cons_storage _ Hc)).
  - apply upload_effects, Hc.
  - intros Hfail.
    destruct (storage_failure_short_circuits o sid a lti p (cons_storage _ Hc)
                Hsess Hf Hsize Hfail) as (H500 & Hdb & _).
    done.
  - apply (cons_files _ Hc').
  - intros rs Hrs. apply (cons_files _ (run_consistent rs _ Hc' Hrs)).
Qed.

Lemma storage_precedes_insert_witness :
  status (fst (post_upload_audio quiet "sess1" (Some clip) (launched local_env))) = 200 ∧
  (∃ rest,
     p_trace (snd (post_upload_audio quiet "sess1" (Some clip) (launched local_env)))
       = p_trace (launched local_env) ++ DiskWrite "f0.webm" :: DbInsert "s0" :: rest) ∧
  has_file (run (snd (post_upload_audio quiet "sess1" (Some clip) (launched local_env)))
                [(busy, PostUploadAudio "sess1" (Some clip))])
           (mkRow "s0" (Some "u1") (Some "c1") (Some "a1") "/uploads/f0.webm"
                  (Some "f0.webm") 4 None 100).
Proof.
  destruct (storage_precedes_insert quiet "sess1" clip u1_session (launched local_env))
    as (Hgood & _ & _ & _ & Hlater).
  - apply launched_consistent.
  - reflexivity.
  - reflexivity.
  - vm_compute. discriminate.
  - destruct Hgood as (H200 & _ & rest & Htrace & _).
    + reflexivity.
    + reflexivity.
    + intros r Hr. by apply elem_of_nil in Hr.
    + split; [exact H200|]. split; [exists rest; exact Htrace|].
      apply Hlater.
      * split; [reflexivity|exact I].
      * apply list_elem_of_here.
Defined.

(** ** The outcome reporter *)

(** When the reporter is called during an upload, and with what. *)
Lemma upload_reports (o : Oracle) (sid : string) (audio : option Part)
  (lti : LtiSession) (p : Process) :
  p_sessions p !! sid = Some lti →
  ∃ delta, p_trace (snd (post_upload_audio o sid audio p)) = p_trace p ++ delta ∧
    ((∃ s g, GradeReport s g ∈ delta) ↔
     status (fst (post_upload_audio o sid audio p)) = 200 ∧
     truthy (lisOutcomeServiceUrl lti) = true) ∧
    (∀ s g, GradeReport s g ∈ delta →
       s = lti ∧ g = 1 # 1 ∧
       ∃ before line, delta = before ++ [DbInsert (o_uuid_sub o); GradeReport s g; line] ∧
                      is_console line = true).
Proof.
  intros Hsess. destruct p as [env st sessions db uploads bucket trace].
  simpl in Hsess. step_upload.
  all: give_delta.
  all: split; [split; [intros (who & gr & Hin); split_elem Hin; done
                      |intros [Hst Hurl]; try discriminate; try congruence;
                       eexists _, _; repeat (apply elem_of_cons; first [left; reflexivity|right])]
              |intros who gr Hin; split_elem Hin].
  all: repeat split; try reflexivity.
  all: try by (exists []; eexists; split; reflexivity).
  all: try by (eexists [_]; eexists; split; reflexivity).
Qed.

(** Whatever becomes of the outcome call, the response and everything but
    the console are the same. *)
Lemma outcome_only_logged (o : Oracle) (r' : OutcomeResult) (sid : string)
  (audio : option Part) (p : Process) :
  let res := post_upload_audio o sid audio p in
  let res' := post_upload_audio (with_outcome o r') sid audio p in
  fst res' = fst res ∧
  p_db (snd res') = p_db (snd res) ∧
  p_uploads (snd res') = p_uploads (snd res) ∧
  p_bucket (snd res') = p_bucket (snd res) ∧
  p_sessions (snd res') = p_sessions (snd res) ∧
  silent (p_trace (snd res')) = silent (p_trace (snd res)).
Proof.
  destruct p as [env st sessions db uploads bucket trace].
  unfold with_outcome. step_upload.
  all: simpl; rewrite ?silent_app; done.
Qed.

(** C8. During an upload by a session, the outcome reporter is called if
    and only if the upload succeeded (answer 200) and the session carries
    an outcome-service URL; it is called after the insert, with the
    session's launch data and the constant grade 1.0, and what becomes of
    the call is one console line.  Whatever that is (the call throws, the
    LMS reports an error, or it succeeds), the response, the table, the
    stored files and the sessions are the same; only console lines differ. *)
Theorem outcome_report_is_best_effort (o : Oracle) (sid : string)
  (audio : option Part) (lti : LtiSession) (p : Process) :
  p_sessions p !! sid = Some lti →
  let res := post_upload_audio o sid audio p in
  (∃ delta, p_trace (snd res) = p_trace p ++ delta ∧
     ((∃ s g, GradeReport s g ∈ delta) ↔
      status (fst res) = 200 ∧ truthy (lisOutcomeServiceUrl lti) = true) ∧
     (∀ s g, GradeReport s g ∈ delta →
        s = lti ∧ g = 1 # 1 ∧
        ∃ before line,
          delta = before ++ [DbInsert (o_uuid_sub o); GradeReport s g; line] ∧
          is_console line = true)) ∧
  (∀ r',
     let res' := post_upload_audio (with_outcome o r') sid audio p in
     fst res' = fst res ∧
     p_db (snd res') = p_db (snd res) ∧
     p_uploads (snd res') = p_uploads (snd res) ∧
     p_bucket (snd res') = p_bucket (snd res) ∧
     p_sessions (snd res') = p_sessions (snd res) ∧
     silent (p_trace (snd res')) = silent (p_trace (snd res))).
Proof.
  intros Hsess res. split.
  - by apply upload_reports.
  - intros r'. apply outcome_only_logged.
Qed.

Lemma outcome_report_is_best_effort_witness :
  (∃ delta,
     p_trace (snd (post_upload_audio quiet "sess1" (Some clip) (launched local_env)))
       = p_trace (launched local_env) ++ delta ∧
     ∃ s g, GradeReport s g ∈ delta) ∧
  fst (post_upload_audio (with_outcome quiet (OutcomeThrew "boom")) "sess1"
         (Some clip) (launched local_env))
    = fst (post_upload_audio quiet "sess1" (Some clip) (launched local_env)).
Proof.
  destruct (outcome_report_is_best_effort quiet "sess1" (Some clip) u1_session
              (launched local_env) (launched_session local_env))
    as [(delta & Htrace & Hiff & _) Hsame].
  split.
  - exists delta. split; [exact Htrace|]. apply Hiff. split; reflexivity.
  - apply (Hsame (OutcomeThrew "boom")).
Defined.

(** ** Reading submissions back *)

(** C5. With an active session, [GET /submission/:id] changes nothing and
    answers with a row only if that row is in the table, has the requested
    id and its [user_id] is the session's user id.  When no row with that
    id belongs to the session's user (the id is unknown, or the row is
    someone else's), the answer is the same 404 [Submission not found] in
    both cases; the answer is never 403. *)
Theorem get_by_id_only_for_owner (o : Oracle) (sid submissionId : string)
  (lti : LtiSession) (p : Process) :
  p_sessions p !! sid = Some lti →
  let res := get_submission o sid submissionId p in
  snd res = p ∧
  (∀ row, fst res = json 200 (JRow row) →
     row ∈ p_db p ∧ id row = submissionId ∧ user_id row = userId lti) ∧
  ((∀ r, r ∈ p_db p → id r = submissionId → user_id r ≠ userId lti) →
     fst res = json 404 (JError "Submission not found")) ∧
  ((∃ row, fst res = json 200 (JRow row)) ∨
   fst res = json 404 (JError "Submission not found")) ∧
  status (fst res) ≠ 403.
Proof.
  intros Hsess. simpl. unfold get_submission, db_get. rewrite Hsess.
  destruct (o_db o) as [e|]; simpl.
  { repeat split; try done. by right. }
  destruct (find _ (p_db p)) as [row|] eqn:Hfind; simpl.
  - apply find_some in Hfind as [Hin [Hid Huser]%andb_true_iff].
    apply list_elem_of_In in Hin. apply String.eqb_eq in Hid.
    apply sql_eq_true in Huser as (u & Hu & Hu').
    split; [done|]. split; [|split; [|split; [|done]]].
    + intros ? [= <-]. repeat split; [done|done|congruence].
    + intros Hother. exfalso. apply (Hother row Hin Hid). congruence.
    + left. by eexists.
  - repeat split; try done. by right.
Qed.

Lemma get_by_id_only_for_owner_witness :
  fst (get_submission quiet "sess1" "nope" (launched local_env))
    = json 404 (JError "Submission not found").
Proof.
  destruct (get_by_id_only_for_owner quiet "sess1" "nope" u1_session
              (launched local_env) (launched_session local_env))
    as (_ & _ & H404 & _).
  apply H404. intros r Hr. by apply elem_of_nil in Hr.
Defined.

(** The owner does get the row: with unique ids and the database
    answering, a row with the requested id and the session's (defined)
    user id is what is returned. *)
Lemma get_by_id_returns_own_row (o : Oracle) (sid : string)
  (lti : LtiSession) (r : Submission) (p : Process) :
  consistent p →
  p_sessions p !! sid = Some lti → o_db o = None →
  r ∈ p_db p → user_id r = userId lti → is_Some (userId lti) →
  get_submission o sid (id r) p = (json 200 (JRow r), p).
Proof.
  intros Hc Hsess Hdb Hr Huser [u Hu].
  unfold get_submission, db_get. rewrite Hsess, Hdb.
  destruct (find _ (p_db p)) as [row|] eqn:Hfind.
  - apply find_some in Hfind as [Hin [Hid _]%andb_true_iff].
    apply list_elem_of_In in Hin. apply String.eqb_eq in Hid.
    by rewrite (unique_id _ row r (cons_ids _ Hc) Hin Hr Hid).
  - exfalso. apply list_elem_of_In in Hr.
    pose proof (find_none _ _ Hfind r Hr) as Hno. simpl in Hno.
    rewrite String.eqb_refl, Huser, Hu in Hno. simpl in Hno.
    by rewrite String.eqb_refl in Hno.
Qed.

(** C6, as stated, fails: the row a session without an assignment id has
    just uploaded carries the session's three values (its [assignment_id]
    is NULL like the session's is undefined), yet the list for that very
    session is empty, since SQL [=] is never true on NULL. *)
Lemma list_misses_rows_without_assignment :
  ∃ lti r,
    p_sessions (run (start local_env fresh) u2_uploaded) !! "sess2" = Some lti ∧
    r ∈ p_db (run (start local_env fresh) u2_uploaded) ∧
    user_id r = userId lti ∧ course_id r = courseId lti ∧
    assignment_id r = assignmentId lti ∧
    fst (get_submissions quiet "sess2" (run (start local_env fresh) u2_uploaded))
      = json 200 (JRows []).
Proof.
  eexists _, _. split; [reflexivity|]. split; [apply list_elem_of_here|].
  repeat split; reflexivity.
Qed.

(** What the list query yields when the database answers. *)
Lemma db_all_rows (o : Oracle) (s : LtiSession) (db : list Submission) :
  o_db o = None → NoDup (id <$> db) →
  ∃ rows, db_all o s db = (None, rows) ∧
    (∀ r, r ∈ db → (summary r ∈ rows ↔ owned_by s r ∧ identified s)) ∧
    (∀ e, e ∈ rows → ∃ r, r ∈ db ∧ e = summary r) ∧
    NoDup rows ∧
    StronglySorted newest_first rows.
Proof.
  intros Hdb Hnd. unfold db_all. rewrite Hdb. eexists. split; [reflexivity|].
  set (mine := filter (λ r, where_owner s r = true) db).
  assert (∀ r, r ∈ order_by_created_desc mine ↔ where_owner s r = true ∧ r ∈ db) as Hin.
  { intros r. rewrite order_by_created_desc_perm.
    apply (list_elem_of_filter (λ r, where_owner s r = true)). }
  split; [|split; [|split]].
  - intros r Hr. rewrite <- where_owner_true. split.
    + intros (r' & Heq & Hr')%list_elem_of_fmap. apply Hin in Hr' as [Hown Hr'].
      by rewrite (unique_id db r r' Hnd Hr Hr' (summary_id _ _ Heq)).
    + intros Hown. apply list_elem_of_fmap_2, Hin. done.
  - intros e (r & -> & Hr)%list_elem_of_fmap. apply Hin in Hr as [_ Hr]. eauto.
  - apply NoDup_fmap_2_strong.
    + intros x y [_ Hx]%Hin [_ Hy]%Hin Heq.
      apply (unique_id db x y Hnd Hx Hy (summary_id _ _ Heq)).
    + rewrite order_by_created_desc_perm. apply NoDup_filter.
      by apply NoDup_fmap_1 in Hnd.
  - apply summaries_sorted, order_by_created_desc_sorted.
Qed.

(** C6, amended.  A list request by an active session, answered by the
    database, changes nothing and returns each row at most once, newest
    first by creation timestamp, as an entry holding only the id, file
    name, file size and timestamp.  A row of the table is listed exactly
    when its [user_id], [course_id] and [assignment_id] equal the
    session's values and the session has all three (a session lacking one
    of them lists nothing).  Hence a row owned by a session with another
    user id is never listed. *)
Theorem list_returns_own_rows_newest_first (o : Oracle) (sid : string)
  (lti : LtiSession) (p : Process) :
  consistent p →
  p_sessions p !! sid = Some lti → o_db o = None →
  ∃ rows, get_submissions o sid p = (json 200 (JRows rows), p) ∧
    (∀ r, r ∈ p_db p → (summary r ∈ rows ↔ owned_by lti r ∧ identified lti)) ∧
    (∀ e, e ∈ rows → ∃ r, r ∈ p_db p ∧ e = summary r) ∧
    NoDup rows ∧
    StronglySorted newest_first rows ∧
    (∀ sid' lti' r, p_sessions p !! sid' = Some lti' → userId lti' ≠ userId lti →
       r ∈ p_db p → owned_by lti' r → summary r ∉ rows).
Proof.
  intros Hc Hsess Hdb.
  destruct (db_all_rows o lti (p_db p) Hdb (cons_ids _ Hc))
    as (rows & Hall & Hiff & Hfrom & Hnodup & Hsorted).
  exists rows. unfold get_submissions. rewrite Hsess, Hall.
  split; [done|]. split; [exact Hiff|]. split; [exact Hfrom|].
  split; [exact Hnodup|]. split; [exact Hsorted|].
  intros sid' lti' r _ Hne Hr [Hu _] [[Hu' _] _]%Hiff; [|done]. congruence.
Qed.

Lemma list_returns_own_rows_newest_first_witness :
  ∃ rows,
    get_submissions quiet "sess1"
      (run (launched local_env) [(quiet, PostUploadAudio "sess1" (Some clip))])
    = (json 200 (JRows rows),
       run (launched local_env) [(quiet, PostUploadAudio "sess1" (Some clip))]) ∧
    mkSummary "s0" (Some "f0.webm") 4 100 ∈ rows ∧
    StronglySorted newest_first rows.
Proof.
  destruct (list_returns_own_rows_newest_first quiet "sess1" u1_session
              (run (launched local_env) [(quiet, PostUploadAudio "sess1" (Some clip))]))
    as (rows & Hres & Hiff & _ & _ & Hsorted & _).
  - apply run_consistent; [apply launched_consistent|].
    split; [reflexivity|exact I].
  - reflexivity.
  - reflexivity.
  - exists rows. split; [exact Hres|]. split; [|exact Hsorted].
    apply (Hiff (mkRow "s0" (Some "u1") (Some "c1") (Some "a1") "/uploads/f0.webm"
                       (Some "f0.webm") 4 None 100)).
    + apply list_elem_of_here.
    + repeat split; by eexists.
Defined.

(** ** Database failures *)




(** * Further properties of the server *)

(** ** Launch *)

(** X1. A valid launch binds the launch fields to the session, replacing
    whatever session was there: the next accepted upload on that session
    is attributed to the [user_id], [context_id] and
    [custom_canvas_assignment_id] of the launch body. *)
Theorem launch_then_upload_attribution (o1 o2 : Oracle) (sid : string)
  (body : gmap string string) (a : Part) (p : Process) :
  consistent p → o_lti o1 = LtiValid →
  fileFilter a = true → byte_length a ≤ fileSize_limit →
  storage_succeeds (p_storage p) o2 →
  o_db o2 = None → (∀ r, r ∈ p_db p → id r ≠ o_uuid_sub o2) →
  let p1 := snd (launch o1 sid body p) in
  fst (launch o1 sid body p) = mkResp 200 (SendFile "public/recorder.html") ∧
  ∃ url name,
    fst (post_upload_audio o2 sid (Some a) p1)
      = json 200 (JUploaded true (o_uuid_sub o2) url "Recording submitted successfully!") ∧
    p_db (snd (post_upload_audio o2 sid (Some a) p1))
      = p_db p ++ [mkRow (o_uuid_sub o2) (body !! "user_id") (body !! "context_id")
                         (body !! "custom_canvas_assignment_id") url name
                         (byte_length a) None (o_now o2)].
Proof.
  intros Hc Hvalid Hf Hsize Hstore Hdb Hfresh. cbv zeta.
  unfold launch. rewrite Hvalid. simpl. split; [done|].
  set (lti := mkLti _ _ _ _ _ _ _).
  set (p1 := with_trace _ _).
  destruct (accepted_upload_result o2 sid a lti p1) as (url & name & p2 & Hrun & Hrows & _).
  - apply (cons_storage _ Hc).
  - simpl. apply lookup_insert_eq.
  - done.
  - done.
  - exact Hstore.
  - done.
  - exact Hfresh.
  - exists url, name. rewrite Hrun. simpl.
    destruct (grade_frame o2 lti p2) as (Hd & _). simpl in Hd. by rewrite Hd.
Qed.

Lemma launch_then_upload_attribution_witness :
  ∃ url name,
    p_db (snd (post_upload_audio quiet "sess1" (Some clip)
                 (snd (launch quiet "sess1" u2_launch (launched local_env)))))
      = [mkRow "s0" (Some "u2") (Some "c1") None url name 4 None 100].
Proof.
  destruct (launch_then_upload_attribution quiet quiet "sess1" u2_launch clip
              (launched local_env)) as (_ & url & name & _ & Hdb).
  - apply launched_consistent.
  - reflexivity.
  - reflexivity.
  - vm_compute. discriminate.
  - reflexivity.
  - reflexivity.
  - intros r Hr. by apply elem_of_nil in Hr.
  - exists url, name. exact Hdb.
Defined.

(** X2. A launch never touches the table, the uploaded files or the
    bucket, and leaves the sessions of other requests alone.  It is
    answered 200 exactly when the provider accepts the signature.  When
    the provider reports an error or an invalid signature the answer is
    401; when the provider cannot even be built, the exception reaches the
    error middleware and the answer is 500.  In neither case does any
    session change: the launch neither creates one nor ends the one
    already there. *)
Theorem launch_frame (o : Oracle) (sid : string) (body : gmap string string)
  (p : Process) :
  let res := launch o sid body p in
  p_db (snd res) = p_db p ∧ p_uploads (snd res) = p_uploads p ∧
  p_bucket (snd res) = p_bucket p ∧
  (∀ sid', sid' ≠ sid → p_sessions (snd res) !! sid' = p_sessions p !! sid') ∧
  (o_lti o ≠ LtiValid → p_sessions (snd res) = p_sessions p) ∧
  ((∃ m, o_lti o = LtiErr m) ∨ o_lti o = LtiInvalid →
     fst res = mkResp 401 (Text "LTI authentication failed") ∧
     ∃ detail, p_trace (snd res) =
                 p_trace p ++ [ConsoleError "LTI authentication failed:" detail]) ∧
  (∀ m, o_lti o = LtiThrew m →
     fst res = json 500 (JError "Something went wrong!") ∧
     p_trace (snd res) = p_trace p ++ [ConsoleError "Application error:" m]) ∧
  (o_lti o = LtiValid →
     fst res = mkResp 200 (SendFile "public/recorder.html") ∧
     p_sessions (snd res) !! sid =
       Some (mkLti (body !! "user_id") (body !! "context_id")
                   (body !! "custom_canvas_assignment_id") (body !! "roles")
                   (body !! "lis_result_sourcedid") (body !! "lis_outcome_service_url")
                   (body !! "oauth_consumer_key"))) ∧
  (status (fst res) = 200 ↔ o_lti o = LtiValid).
Proof.
  unfold launch, error_middleware. destruct (o_lti o) as [m|m| |] eqn:Hv; simpl;
    (split; [done|]); (split; [done|]); (split; [done|]);
    (split; [intros sid' Hne; by rewrite ?lookup_insert_ne|]);
    (split; [done|]);
    (split; [intros [[m' ?]|?]; try done; (split; [done|by eexists])|]);
    (split; [intros m' ?; try done; simplify_eq; done|]);
    (split; [intros ?; try done; (split; [done|apply lookup_insert_eq])|]);
    (split; done).
Qed.

Lemma launch_frame_witness :
  fst (launch forged "sess1" u2_launch (launched local_env))
    = mkResp 401 (Text "LTI authentication failed") ∧
  p_sessions (snd (launch forged "sess1" u2_launch (launched local_env))) !! "sess1"
    = Some u1_session ∧
  fst (launch unbuilt "sess1" u2_launch (launched local_env))
    = json 500 (JError "Something went wrong!") ∧
  p_sessions (snd (launch unbuilt "sess1" u2_launch (launched local_env))) !! "sess1"
    = Some u1_session.
Proof.
  destruct (launch_frame forged "sess1" u2_launch (launched local_env))
    as (_ & _ & _ & _ & Hsame & H401 & _).
  destruct (launch_frame unbuilt "sess1" u2_launch (launched local_env))
    as (_ & _ & _ & _ & Hsame' & _ & H500 & _).
  split; [apply H401; left; by eexists|].
  split; [rewrite Hsame; [reflexivity|discriminate]|].
  split; [apply (H500 "provider not constructed"); reflexivity|].
  rewrite Hsame'; [reflexivity|discriminate].
Defined.

(** ** The read endpoints *)

(** X3. Both read endpoints are read-only, whatever the request, the
    session and the database do; without an active session each answers
    401 [Session expired]. *)
Theorem reads_change_nothing (o : Oracle) (sid submissionId : string) (p : Process) :
  snd (get_submission o sid submissionId p) = p ∧
  snd (get_submissions o sid p) = p ∧
  (p_sessions p !! sid = None →
     fst (get_submission o sid submissionId p) = json 401 (JError "Session expired") ∧
     fst (get_submissions o sid p) = json 401 (JError "Session expired")).
Proof.
  unfold get_submission, get_submissions, db_get, db_all.
  destruct (p_sessions p !! sid); [|done].
  destruct (o_db o); simpl; [done|]. split; [|done]. by destruct (find _ _).
Qed.

Lemma reads_change_nothing_witness :
  fst (get_submissions quiet "nobody" (launched local_env))
    = json 401 (JError "Session expired").
Proof.
  destruct (reads_change_nothing quiet "nobody" "s0" (launched local_env))
    as (_ & _ & H401).
  apply H401. reflexivity.
Defined.

(** ** What an upload can do to the table *)

(** X4. An upload request never changes the sessions, and it adds a row
    exactly when it is answered 200: then the table grows by one row
    carrying the generated submission id; every other answer is a 401 or a
    500 and leaves the table as it was. *)
Theorem upload_row_iff_success (o : Oracle) (sid : string) (audio : option Part)
  (p : Process) :
  let res := post_upload_audio o sid audio p in
  p_sessions (snd res) = p_sessions p ∧
  ((status (fst res) = 200 ∧
    ∃ row, p_db (snd res) = p_db p ++ [row] ∧ id row = o_uuid_sub o) ∨
   ((status (fst res) = 401 ∨ status (fst res) = 500) ∧ p_db (snd res) = p_db p)).
Proof.
  destruct p as [env st sessions db uploads bucket trace].
  step_upload.
  all: split; [done|].
  all: first [ by (right; split; [by (left + right)|done])
             | left; split; [done|]; by eexists ].
Qed.

Lemma get_submission_state (o : Oracle) (sid submissionId : string) (p : Process) :
  snd (get_submission o sid submissionId p) = p.
Proof. unfold get_submission. by repeat case_match. Qed.

Lemma get_submissions_state (o : Oracle) (sid : string) (p : Process) :
  snd (get_submissions o sid p) = p.
Proof. unfold get_submissions. by repeat case_match. Qed.

(** The files an upload request finds stay, when its file name is new. *)
Lemma handle_files (o : Oracle) (sid : string) (audio : option Part) (p : Process)
  (name : string) :
  name_fresh o p → is_Some (p_uploads p !! name) →
  is_Some (p_uploads (snd (post_upload_audio o sid audio p)) !! name).
Proof.
  intros Hfresh Hname.
  pose proof (upload_single_files o audio p (λ _ _ _, Hfresh) name Hname) as H1.
  unfold post_upload_audio.
  destruct (upload_single o audio p) as [[e|file] p1]; simpl in *; [done|].
  destruct p1 as [env st sessions db uploads bucket trace]. simpl in H1.
  revert H1. clear. intros H1.
  unfold upload_handler, store_file, s3_branch, db_run_insert, sendGradeToCanvas.
  repeat (case_match; simpl in *; simplify_eq; try done).
Qed.

(** X5. Whatever requests are served, the table only grows at its end: a
    row, once written, is never updated or deleted.  And as long as every
    upload gets a file name that is new, no file of the uploads directory
    disappears. *)
Theorem table_and_files_only_grow (rs : list (Oracle * Request)) (p : Process) :
  (∃ rows, p_db (run p rs) = p_db p ++ rows) ∧
  (names_fresh p rs →
   ∀ name, is_Some (p_uploads p !! name) → is_Some (p_uploads (run p rs) !! name)).
Proof.
  revert p. induction rs as [|[o r] rs IH]; intros p; simpl.
  - split; [by exists []; rewrite app_nil_r|done].
  - destruct (IH (snd (handle o r p))) as ([rows2 Hd2] & Hu2).
    split.
    + destruct (handle_rows o r p) as [Hd1|(row & Hd1 & _)].
      * exists rows2. by rewrite Hd2, Hd1.
      * exists (row :: rows2). by rewrite Hd2, Hd1, <- app_assoc.
    + intros [Hr Hrs] name Hname. apply (Hu2 Hrs).
      destruct r as [sid body|sid audio|sid sub|sid]; simpl.
      * unfold launch, error_middleware. by destruct (o_lti o).
      * by apply handle_files.
      * by rewrite get_submission_state.
      * by rewrite get_submissions_state.
Qed.

Lemma table_and_files_only_grow_witness :
  is_Some (p_uploads (run (launched local_env)
                          [(quiet, PostUploadAudio "sess1" (Some clip));
                           (busy, PostUploadAudio "sess1" (Some note))])
             !! "f0.webm").
Proof.
  destruct (table_and_files_only_grow
              [(busy, PostUploadAudio "sess1" (Some note))]
              (run (launched local_env) [(quiet, PostUploadAudio "sess1" (Some clip))]))
    as [_ Hfiles].
  apply Hfiles.
  - split; [reflexivity|exact I].
  - by eexists.
Defined.

(** X6. Without a valid launch nothing can be submitted: from process
    start, through any requests none of which is a launch the provider
    accepts, the session store stays empty and the table and the bucket
    stay as they were persisted. *)
Theorem nothing_without_valid_launch (env : gmap string string) (d : Persisted)
  (rs : list (Oracle * Request)) :
  Forall (λ x, ¬ valid_launch x) rs →
  p_sessions (run (start env d) rs) = ∅ ∧
  p_db (run (start env d) rs) = d_db d ∧
  p_bucket (run (start env d) rs) = d_bucket d.
Proof.
  assert (∀ p, Forall (λ x, ¬ valid_launch x) rs → p_sessions p = ∅ →
               p_sessions (run p rs) = ∅ ∧ p_db (run p rs) = p_db p ∧
               p_bucket (run p rs) = p_bucket p) as Hgen.
  { induction rs as [|[o r] rs IH]; intros p Hrs Hempty; simpl; [done|].
    apply Forall_cons in Hrs as [Hr Hrs].
    assert (p_sessions (snd (handle o r p)) = ∅ ∧
            p_db (snd (handle o r p)) = p_db p ∧
            p_bucket (snd (handle o r p)) = p_bucket p) as (Hs & Hd & Hb).
    { destruct r as [sid body|sid audio|sid sub|sid]; simpl.
      - unfold valid_launch in Hr. simpl in Hr. unfold launch, error_middleware.
        destruct (o_lti o); simpl; done.
      - unfold post_upload_audio.
        pose proof (upload_single_frame o audio p) as Hfr.
        destruct (upload_single o audio p) as [[e|file] p1]; simpl in *.
        + destruct Hfr as (_ & _ & -> & -> & ->). done.
        + destruct Hfr as (_ & _ & Hs1 & Hd1 & Hb1).
          unfold upload_handler. rewrite Hs1, Hempty, lookup_empty. simpl.
          by rewrite Hs1, Hd1, Hb1.
      - by rewrite get_submission_state.
      - by rewrite get_submissions_state. }
    destruct (IH _ Hrs Hs) as (-> & -> & ->). done. }
  intros Hrs. apply (Hgen (start env d) Hrs eq_refl).
Qed.

Lemma nothing_without_valid_launch_witness :
  p_db (run (start local_env fresh)
            [(forged, PostLaunch "sess1" u1_launch);
             (quiet, PostUploadAudio "sess1" (Some clip))]) = [].
Proof.
  destruct (nothing_without_valid_launch local_env fresh
              [(forged, PostLaunch "sess1" u1_launch);
               (quiet, PostUploadAudio "sess1" (Some clip))])
    as (_ & Hdb & _); [|exact Hdb].
  repeat constructor; unfold valid_launch; simpl; [discriminate|tauto].
Defined.

(** X7. Submission ids stay unique: from a state with unique ids, no
    sequence of requests ever leaves two rows with the same id in the
    table (an upload whose generated id is taken is answered 500 and
    inserts nothing). *)
Theorem ids_stay_unique (rs : list (Oracle * Request)) (o : Oracle) (sid : string)
  (audio : option Part) (p : Process) :
  consistent p →
  NoDup (id <$> p_db (run p rs)) ∧
  ((∃ r, r ∈ p_db p ∧ id r = o_uuid_sub o) →
     status (fst (post_upload_audio o sid audio p)) ≠ 200 ∧
     p_db (snd (post_upload_audio o sid audio p)) = p_db p).
Proof.
  intros Hc. split; [apply run_ids, (cons_ids _ Hc)|].
  intros (r & Hr & Hid).
  assert (existsb (λ r0, String.eqb (id r0) (o_uuid_sub o)) (p_db p) = true) as Hex.
  { apply existsb_exists. exists r. split; [by apply list_elem_of_In|].
    by apply String.eqb_eq. }
  destruct p as [env st sessions db uploads bucket trace]. simpl in Hex.
  step_upload.
  all: by split.
Qed.

Lemma ids_stay_unique_witness :
  NoDup (id <$> p_db (run (launched local_env)
                          [(quiet, PostUploadAudio "sess1" (Some clip));
                           (quiet, PostUploadAudio "sess1" (Some clip))])) ∧
  p_db (run (launched local_env)
            [(quiet, PostUploadAudio "sess1" (Some clip));
             (quiet, PostUploadAudio "sess1" (Some clip))])
    = p_db (run (launched local_env) [(quiet, PostUploadAudio "sess1" (Some clip))]).
Proof.
  split.
  - apply (ids_stay_unique _ quiet "sess1" None (launched local_env)).
    apply launched_consistent.
  - reflexivity.
Defined.

(** ** Upload followed by a read *)

Lemma upload_sessions (o : Oracle) (sid : string) (audio : option Part) (p : Process) :
  p_sessions (snd (post_upload_audio o sid audio p)) = p_sessions p.
Proof. destruct p as [env st sessions db uploads bucket trace]. by step_upload. Qed.

(** The state after an accepted, stored and inserted upload. *)
Lemma accepted_upload_state (o : Oracle) (sid : string) (a : Part)
  (lti : LtiSession) (p : Process) :
  consistent p →
  p_sessions p !! sid = Some lti →
  fileFilter a = true → byte_length a ≤ fileSize_limit →
  storage_succeeds (p_storage p) o →
  o_db o = None → (∀ r, r ∈ p_db p → id r ≠ o_uuid_sub o) →
  ∃ url name,
    p_db (snd (post_upload_audio o sid (Some a) p))
      = p_db p ++ [mkRow (o_uuid_sub o) (userId lti) (courseId lti) (assignmentId lti)
                         url name (byte_length a) None (o_now o)] ∧
    p_sessions (snd (post_upload_audio o sid (Some a) p)) !! sid = Some lti ∧
    consistent (snd (post_upload_audio o sid (Some a) p)).
Proof.
  intros Hc Hsess Hf Hsize Hstore Hdb Hfresh.
  destruct (accepted_upload_result o sid a lti p (cons_storage _ Hc)
              Hsess Hf Hsize Hstore Hdb Hfresh) as (url & name & p2 & Hrun & Hrows & _).
  exists url, name. split; [|split].
  - rewrite Hrun. simpl. destruct (grade_frame o lti p2) as (Hd & _). simpl in Hd.
    by rewrite Hd.
  - by rewrite upload_sessions.
  - by apply accepted_upload_consistent.
Qed.

Lemma find_all_false {A} (f : A → bool) (l : list A) :
  (∀ x, x ∈ l → f x = false) → find f l = None.
Proof.
  induction l as [|x l IH]; intros Hall; simpl; [done|].
  rewrite (Hall x) by apply list_elem_of_here.
  apply IH. intros y Hy. apply Hall. by apply list_elem_of_further.
Qed.

(** X8. What was uploaded can be read back: after an accepted upload by a
    session with a user id, [GET /submission/<the returned id>] by that
    session returns the row just written (its size the uploaded byte
    length), while the same request by a session of another user gets the
    404. *)
Theorem uploaded_row_is_retrievable (o o' : Oracle) (sid : string) (a : Part)
  (lti : LtiSession) (p : Process) :
  consistent p →
  p_sessions p !! sid = Some lti → is_Some (userId lti) →
  fileFilter a = true → byte_length a ≤ fileSize_limit →
  storage_succeeds (p_storage p) o →
  o_db o = None → (∀ r, r ∈ p_db p → id r ≠ o_uuid_sub o) →
  o_db o' = None →
  let p' := snd (post_upload_audio o sid (Some a) p) in
  (∃ row, get_submission o' sid (o_uuid_sub o) p' = (json 200 (JRow row), p') ∧
          id row = o_uuid_sub o ∧ user_id row = userId lti ∧
          file_size row = byte_length a ∧ created_at row = o_now o) ∧
  (∀ sid' lti', p_sessions p !! sid' = Some lti' → userId lti' ≠ userId lti →
     get_submission o' sid' (o_uuid_sub o) p'
       = (json 404 (JError "Submission not found"), p')).
Proof.
  intros Hc Hsess Huser Hf Hsize Hstore Hdb Hfresh Hdb'. cbv zeta.
  destruct (accepted_upload_state o sid a lti p Hc Hsess Hf Hsize Hstore Hdb Hfresh)
    as (url & name & Hrows & Hsess' & Hc').
  set (p' := snd (post_upload_audio o sid (Some a) p)) in *.
  set (row := mkRow _ _ _ _ _ _ _ _ _) in Hrows.
  split.
  - exists row. split; [|done].
    apply (get_by_id_returns_own_row o' sid lti row p' Hc' Hsess' Hdb'); [|done|done].
    rewrite Hrows. apply elem_of_app. right. by apply list_elem_of_singleton.
  - intros sid' lti' Hs' Hne. unfold get_submission, db_get.
    unfold p' at 1. rewrite upload_sessions, Hs', Hdb'. fold p'.
    rewrite find_all_false; [done|].
    intros r. rewrite Hrows. intros [Hr|Hr%list_elem_of_singleton]%elem_of_app.
    + apply andb_false_iff. left. apply String.eqb_neq. by apply Hfresh.
    + subst r. apply andb_false_iff. right. simpl.
      apply not_true_is_false. intros (u & Hu & Hu')%sql_eq_true. congruence.
Qed.

Lemma uploaded_row_is_retrievable_witness :
  ∃ row,
    fst (get_submission quiet "sess1" "s0"
           (snd (post_upload_audio quiet "sess1" (Some clip) (launched local_env))))
      = json 200 (JRow row) ∧ file_size row = 4.
Proof.
  destruct (uploaded_row_is_retrievable quiet quiet "sess1" clip u1_session
              (launched local_env)) as [(row & Hget & _ & _ & Hsize & _) _].
  - apply launched_consistent.
  - reflexivity.
  - by eexists.
  - reflexivity.
  - vm_compute. discriminate.
  - reflexivity.
  - reflexivity.
  - intros r Hr. by apply elem_of_nil in Hr.
  - reflexivity.
  - exists row. split; [exact (f_equal fst Hget)|exact Hsize].
Defined.

Lemma order_snoc_newest (l : list Submission) (r : Submission) :
  (∀ x, x ∈ l → created_at x < created_at r) →
  order_by_created_desc (l ++ [r]) = r :: order_by_created_desc l.
Proof.
  induction l as [|x l IH]; intros Hnew; simpl; [done|].
  rewrite IH by (intros y Hy; apply Hnew; by apply list_elem_of_further).
  simpl. assert (created_at x < created_at r) as Hx by apply Hnew, list_elem_of_here.
  apply N.leb_gt in Hx. by rewrite Hx.
Qed.

(** X9. A new submission shows up at the top of the list: after an
    accepted upload by a session that has its three identifiers, with a
    timestamp later than that of every existing row, the session's list is
    the list as it was before, preceded by the entry of the new row. *)
Theorem upload_then_list_shows_it_first (o o' : Oracle) (sid : string) (a : Part)
  (lti : LtiSession) (p : Process) :
  consistent p →
  p_sessions p !! sid = Some lti → identified lti →
  fileFilter a = true → byte_length a ≤ fileSize_limit →
  storage_succeeds (p_storage p) o →
  o_db o = None → (∀ r, r ∈ p_db p → id r ≠ o_uuid_sub o) →
  (∀ r, r ∈ p_db p → created_at r < o_now o) →
  o_db o' = None →
  let p' := snd (post_upload_audio o sid (Some a) p) in
  ∃ before name,
    get_submissions o' sid p = (json 200 (JRows before), p) ∧
    get_submissions o' sid p'
      = (json 200 (JRows (mkSummary (o_uuid_sub o) name (byte_length a) (o_now o)
                          :: before)), p').
Proof.
  intros Hc Hsess Hident Hf Hsize Hstore Hdb Hfresh Hnew Hdb'. cbv zeta.
  destruct (accepted_upload_state o sid a lti p Hc Hsess Hf Hsize Hstore Hdb Hfresh)
    as (url & name & Hrows & Hsess' & _).
  set (p' := snd (post_upload_audio o sid (Some a) p)) in *.
  set (row := mkRow _ _ _ _ _ _ _ _ _) in Hrows.
  assert (where_owner lti row = true) as Hown.
  { apply where_owner_true. split; [done|exact Hident]. }
  eexists _, name. unfold get_submissions, db_all.
  rewrite Hsess, Hsess', Hdb', Hrows. split; [reflexivity|].
  rewrite filter_app, (filter_cons_True _ row) by exact Hown.
  rewrite filter_nil, order_snoc_newest; [done|].
  intros x [_ Hx]%list_elem_of_filter. by apply Hnew.
Qed.

Lemma upload_then_list_shows_it_first_witness :
  ∃ name,
    fst (get_submissions quiet "sess1"
           (snd (post_upload_audio quiet "sess1" (Some clip) (launched local_env))))
      = json 200 (JRows [mkSummary "s0" name 4 100]).
Proof.
  destruct (upload_then_list_shows_it_first quiet quiet "sess1" clip u1_session
              (launched local_env)) as (before & name & Hbefore & Hafter).
  - apply launched_consistent.
  - reflexivity.
  - repeat split; by eexists.
  - reflexivity.
  - vm_compute. discriminate.
  - reflexivity.
  - reflexivity.
  - intros r Hr. by apply elem_of_nil in Hr.
  - intros r Hr. by apply elem_of_nil in Hr.
  - reflexivity.
  - exists name. injection Hbefore as <-. exact (f_equal fst Hafter).
Defined.

(** ** What is stored, and under which name *)

(** X10. Under disk storage every file that passes the checks is written
    as [<uuid>.webm], whatever its mimetype and whatever follows: no
    session, a failing insert or a taken id leave the file in the uploads
    directory, since the handler never removes it.  When a row is
    inserted, its [file_name] is that name and its [audio_url] is
    [/uploads/<name>]. *)
Theorem disk_file_written_whatever_follows (o : Oracle) (sid : string) (a : Part)
  (p : Process) :
  p_storage p = DiskStorage →
  fileFilter a = true → byte_length a ≤ fileSize_limit → o_disk o = None →
  let res := post_upload_audio o sid (Some a) p in
  let name := o_uuid_name o +:+ ".webm" in
  p_uploads (snd res) = <[name := content a]> (p_uploads p) ∧
  p_bucket (snd res) = p_bucket p ∧
  (status (fst res) = 200 →
     ∃ row, p_db (snd res) = p_db p ++ [row] ∧
            file_name row = Some name ∧ audio_url row = "/uploads/" +:+ name ∧
            fst res = json 200 (JUploaded true (id row) (audio_url row)
                                          "Recording submitted successfully!")).
Proof.
  intros Hst Hf Hsize Hdisk. apply N.ltb_ge in Hsize. cbv zeta.
  destruct p as [env st sessions db uploads bucket trace]. simpl in Hst. subst st.
  unfold post_upload_audio, upload_single. rewrite Hf, Hsize. simpl. rewrite Hdisk.
  unfold upload_handler, store_file, s3_branch, db_run_insert, sendGradeToCanvas. simpl.
  repeat (case_match; simpl in *; simplify_eq); repeat split; try done.
  all: intros _; by eexists.
Qed.

Lemma disk_file_written_whatever_follows_witness :
  p_uploads (snd (post_upload_audio busy "sess1" (Some clip) (launched local_env)))
    !! "f1.webm" = Some (content clip) ∧
  p_db (snd (post_upload_audio busy "sess1" (Some clip) (launched local_env))) = [].
Proof.
  destruct (disk_file_written_whatever_follows busy "sess1" clip (launched local_env))
    as (Hup & _); try reflexivity.
  - vm_compute. discriminate.
  - split; [by rewrite Hup|reflexivity].
Defined.

(** X11. Under the object store, an upload by an active session whose S3
    call resolves puts exactly one object, whatever the insert does next:
    key [submissions/audio-<submission id>.webm] in the bucket named by
    [S3_BUCKET_NAME], the uploaded bytes as body, content type
    [audio/webm] whatever mimetype was declared, ACL [public-read].  The
    uploads directory is not touched, and a row that gets inserted has the
    location S3 reported as [audio_url] and [audio-<id>.webm] as
    [file_name]. *)
Theorem s3_object_put (o : Oracle) (sid : string) (a : Part) (lti : LtiSession)
  (loc : string) (p : Process) :
  consistent p → p_storage p = MemoryStorage →
  p_sessions p !! sid = Some lti →
  fileFilter a = true → byte_length a ≤ fileSize_limit →
  o_s3 o = S3Resolved loc →
  let res := post_upload_audio o sid (Some a) p in
  let fileName := "audio-" +:+ o_uuid_sub o +:+ ".webm" in
  p_bucket (snd res)
    = p_bucket p ++ [mkObj (p_env p !! "S3_BUCKET_NAME") ("submissions/" +:+ fileName)
                           (content a) "audio/webm" "public-read" loc] ∧
  p_uploads (snd res) = p_uploads p ∧
  (status (fst res) = 200 →
     ∃ row, p_db (snd res) = p_db p ++ [row] ∧
            file_name row = Some fileName ∧ audio_url row = loc).
Proof.
  intros Hc Hst Hsess Hf Hsize Hs3. apply N.ltb_ge in Hsize. cbv zeta.
  pose proof (cons_storage _ Hc) as Hcons. rewrite Hst in Hcons.
  symmetry in Hcons. apply select_storage_memory in Hcons as [Hkey _].
  destruct p as [env st sessions db uploads bucket trace]. simpl in *. subst st.
  unfold post_upload_audio, upload_single. rewrite Hf, Hsize. simpl.
  unfold upload_handler, store_file, s3_branch, db_run_insert, sendGradeToCanvas. simpl.
  rewrite Hsess, Hkey, Hs3.
  repeat (case_match; simpl in *; simplify_eq); repeat split; try done.
  all: intros _; by eexists.
Qed.

Lemma s3_object_put_witness :
  Key <$> p_bucket (snd (post_upload_audio busy "sess1"
                           (Some (mkPart "audio/mpeg" (content clip))) (launched aws_env)))
    = ["submissions/audio-s1.webm"] ∧
  ContentType <$> p_bucket (snd (post_upload_audio busy "sess1"
                           (Some (mkPart "audio/mpeg" (content clip))) (launched aws_env)))
    = ["audio/webm"].
Proof.
  destruct (s3_object_put busy "sess1" (mkPart "audio/mpeg" (content clip)) u1_session
              "https://bucket.s3.amazonaws.com/submissions/audio-s1.webm"
              (launched aws_env)) as (Hb & _).
  - apply launched_consistent.
  - reflexivity.
  - reflexivity.
  - reflexivity.
  - vm_compute. discriminate.
  - reflexivity.
  - rewrite Hb. split; reflexivity.
Defined.

(** X12. Under the object store nothing is kept of an upload without an
    active session: the file lives only in the request's memory, the S3
    call is never made, and uploads directory, bucket and table are as
    before (contrast with disk storage, where the file is left behind). *)
Theorem memory_upload_without_session_stores_nothing (o : Oracle) (sid : string)
  (audio : option Part) (p : Process) :
  p_storage p = MemoryStorage → p_sessions p !! sid = None →
  let res := post_upload_audio o sid audio p in
  p_uploads (snd res) = p_uploads p ∧ p_bucket (snd res) = p_bucket p ∧
  p_db (snd res) = p_db p ∧ silent (p_trace (snd res)) = silent (p_trace p).
Proof.
  intros Hst Hsess. cbv zeta.
  destruct p as [env st sessions db uploads bucket trace]. simpl in *. subst st.
  step_upload. all: simpl; rewrite ?silent_app; simpl; by rewrite ?app_nil_r.
Qed.

Lemma memory_upload_without_session_stores_nothing_witness :
  snd (post_upload_audio quiet "nobody" (Some clip) (launched aws_env))
    = launched aws_env.
Proof.
  destruct (memory_upload_without_session_stores_nothing quiet "nobody" (Some clip)
              (launched aws_env)) as (_ & _ & _ & _); reflexivity.
Defined.

(** X13. An upload request that carries no file part: with an active
    session the handler's read of [req.file.buffer] throws, the answer is
    a 500 whose message starts [Upload failed: ], and nothing is stored,
    inserted or reported; without a session the answer is the 401 and the
    state is untouched. *)
Theorem upload_without_file (o : Oracle) (sid : string) (p : Process) :
  let res := post_upload_audio o sid None p in
  p_uploads (snd res) = p_uploads p ∧ p_bucket (snd res) = p_bucket p ∧
  p_db (snd res) = p_db p ∧ silent (p_trace (snd res)) = silent (p_trace p) ∧
  (is_Some (p_sessions p !! sid) →
     ∃ message, fst res = json 500 (JError ("Upload failed: " +:+ message))) ∧
  (p_sessions p !! sid = None →
     res = (json 401 (JError "Session expired. Please relaunch from Canvas."), p)).
Proof.
  cbv zeta. unfold post_upload_audio, upload_single, upload_handler, store_file.
  destruct (p_sessions p !! sid) as [lti|]; simpl.
  - rewrite silent_app. simpl. rewrite app_nil_r.
    split; [done|]. split; [done|]. split; [done|]. split; [done|].
    split; [|done]. intros _. by eexists.
  - split; [done|]. split; [done|]. split; [done|]. split; [done|].
    split; [|done]. by intros [? ?].
Qed.

Lemma upload_without_file_witness :
  ∃ message,
    fst (post_upload_audio quiet "sess1" None (launched local_env))
      = json 500 (JError ("Upload failed: " +:+ message)).
Proof.
  destruct (upload_without_file quiet "sess1" (launched local_env))
    as (_ & _ & _ & _ & H500 & _).
  apply H500. by eexists.
Defined.

(** * Properties of the recorder *)

Example timer_text_samples :
  timer_text 0 125000 = "02:05" ∧ timer_text 0 999 = "00:00" ∧
  timer_text 0 5999999 = "99:59" ∧ timer_text 0 6000000 = "100:00" ∧
  timer_text 1000 0 = "-1:-1".
Proof. repeat split; vm_compute; reflexivity. Qed.

Example submit_samples :
  status_textContent (submitRecording (upload_fetch quiet "nobody" (launched local_env)) with_clip)
    = text_submission_failed +:+ "Session expired. Please relaunch from Canvas." ∧
  r_audioChunks (submitRecording (upload_fetch quiet "sess1" (launched local_env)) with_clip)
    = [] ∧
  status_textContent (submitRecording (upload_fetch quiet "sess1" (launched local_env)) with_clip)
    = text_submitted.
Proof. repeat split; vm_compute; reflexivity. Qed.

(** ** Chunks *)

Lemma react_chunks_nonempty (e : Event) (r : Recorder) :
  chunks_nonempty r → chunks_nonempty (react e r).
Proof.
  unfold chunks_nonempty. intros Hr.
  destruct e; simpl;
    unfold requestMicrophone, startRecording, stopRecording, ondataavailable, onstop,
      onerror, playRecording, submit_begin, submit_end, submission_failed, tick,
      visibilitychange, statusTimeout, stopRecording, stopTimer;
    repeat case_match; simpl; try done; try by constructor.
  apply Forall_app. split; [done|]. constructor; [|constructor].
  intros ->. simpl in *. discriminate.
Qed.

Lemma concat_nonempty {A} (l : list (list A)) :
  l ≠ [] → Forall (λ chunk, chunk ≠ []) l → concat l ≠ [].
Proof.
  destruct l as [|c l]; [done|]. intros _ Hall. apply Forall_cons in Hall as [Hc _].
  simpl. destruct c; [done|]. discriminate.
Qed.

(** X14. The recorder never keeps an empty chunk: whatever happens to it
    (clicks, data, errors, answers, ticks), every chunk it holds has at
    least one byte, so a request it sends always carries a non-empty
    [audio/webm] body. *)
Theorem recorder_never_keeps_empty_chunk (es : list Event) (r : Recorder) :
  chunks_nonempty r →
  chunks_nonempty (reacts es r) ∧
  (∀ r' part, submit_begin (reacts es r) = (r', Some part) →
              mimetype part = "audio/webm" ∧ content part ≠ []).
Proof.
  intros Hr.
  assert (chunks_nonempty (reacts es r)) as Hes.
  { revert r Hr. induction es as [|e es IH]; intros r Hr; simpl; [done|].
    by apply IH, react_chunks_nonempty. }
  split; [done|]. intros r' part. unfold submit_begin.
  destruct (length (r_audioChunks (reacts es r)) =? 0)%nat eqn:Hlen; [discriminate|].
  destruct (client_size_limit <? _); [discriminate|].
  intros [= _ <-]. split; [done|]. simpl. apply concat_nonempty; [|done].
  intros Hnil. rewrite Hnil in Hlen. discriminate.
Qed.

Lemma recorder_never_keeps_empty_chunk_witness :
  chunks_nonempty
    (reacts [ClickRecord Started 0; DataAvailable []; DataAvailable [Byte.x1a];
             ClickStop false; RecorderStopped "blob:2"] with_clip) ∧
  r_audioChunks
    (reacts [ClickRecord Started 0; DataAvailable []; DataAvailable [Byte.x1a];
             ClickStop false; RecorderStopped "blob:2"] with_clip) = [[Byte.x1a]].
Proof.
  split; [|reflexivity].
  apply (recorder_never_keeps_empty_chunk _ with_clip).
  repeat constructor; discriminate.
Defined.

(** ** Submitting *)

(** X15. The recorder sends a request exactly when it holds at least one
    chunk and the clip is at most 50 MiB; otherwise it only shows a
    message.  What it sends is never refused by the server's upload
    middleware for its type or size: with a working disk the file reaches
    the handler, with the clip's byte count as size. *)
Theorem recorder_upload_passes_server_checks (r : Recorder) (o : Oracle)
  (p : Process) :
  (snd (submit_begin r) = Some (audioBlob r) ∨ snd (submit_begin r) = None) ∧
  (snd (submit_begin r) = Some (audioBlob r) ↔
     r_audioChunks r ≠ [] ∧ clip_size r ≤ 50 * 1024 * 1024) ∧
  (snd (submit_begin r) = None →
     r_audioChunks (fst (submit_begin r)) = r_audioChunks r ∧
     submitBtn_disabled (fst (submit_begin r)) = submitBtn_disabled r ∧
     status_className (fst (submit_begin r)) = "status status-error") ∧
  (snd (submit_begin r) = Some (audioBlob r) → o_disk o = None →
     ∃ f p', upload_single o (Some (audioBlob r)) p = (inr (Some f), p') ∧
             f_size f = clip_size r ∧ f_mimetype f = "audio/webm").
Proof.
  change (50 * 1024 * 1024) with client_size_limit.
  change (clip_size r) with (byte_length (audioBlob r)).
  unfold submit_begin.
  destruct (r_audioChunks r) as [|c cs] eqn:Hchunks; simpl.
  { split; [by right|]. split; [|split; [done|done]]. split; [done|]. by intros [? _]. }
  destruct (client_size_limit <? byte_length (audioBlob r)) eqn:Hsize; simpl.
  - apply N.ltb_lt in Hsize.
    split; [by right|]. split; [|split; [done|done]]. split; [done|].
    intros [_ Hle]. lia.
  - apply N.ltb_ge in Hsize.
    split; [by left|]. split; [|split; [done|]]. { split; [|done]. by intros _. }
    intros _ Hdisk. unfold upload_single.
    change (fileFilter (audioBlob r)) with true. simpl.
    change client_size_limit with fileSize_limit in Hsize.
    apply N.ltb_ge in Hsize. rewrite Hsize, Hdisk.
    destruct (p_storage p); by eexists _, _.
Qed.

Lemma recorder_upload_passes_server_checks_witness :
  snd (submit_begin with_clip) = Some (audioBlob with_clip) ∧
  ∃ f p', upload_single quiet (Some (audioBlob with_clip)) (launched local_env)
            = (inr (Some f), p') ∧ f_size f = 4.
Proof.
  destruct (recorder_upload_passes_server_checks with_clip quiet (launched local_env))
    as (_ & Hiff & _ & Hacc).
  assert (snd (submit_begin with_clip) = Some (audioBlob with_clip)) as Hsent.
  { apply Hiff. split; [discriminate|]. vm_compute. discriminate. }
  split; [exact Hsent|].
  destruct (Hacc Hsent eq_refl) as (f & p' & Hup & Hsize & _).
  exists f, p'. split; [exact Hup|exact Hsize].
Defined.

(** The body of an upload answer: a success object with status 200, an
    error object otherwise. *)
Lemma upload_answer_body (o : Oracle) (sid : string) (audio : option Part)
  (p : Process) :
  (status (fst (post_upload_audio o sid audio p)) = 200 ∧
   result_success (payload (fst (post_upload_audio o sid audio p))) = true) ∨
  (status (fst (post_upload_audio o sid audio p)) ≠ 200 ∧
   ∃ e, payload (fst (post_upload_audio o sid audio p)) = JError e ∧ e ≠ "").
Proof.
  destruct p as [env st sessions db uploads bucket trace].
  step_upload.
  all: first [ by left | right; split; [done|]; eexists; split; [reflexivity|done] ].
Qed.

(** X16. From recorder to table: when the recorder submits a clip it may
    send to a server where the session is active and storage and insert
    succeed, the server writes one row whose [file_size] is the clip's
    byte count, and the recorder is reset: no chunks, no object URL left,
    play and submit disabled, timer at [00:00], the success message shown. *)
Theorem submit_end_to_end (o : Oracle) (sid : string) (lti : LtiSession)
  (p : Process) (r : Recorder) :
  consistent p → p_sessions p !! sid = Some lti →
  storage_succeeds (p_storage p) o →
  o_db o = None → (∀ x, x ∈ p_db p → id x ≠ o_uuid_sub o) →
  r_audioChunks r ≠ [] → clip_size r ≤ 50 * 1024 * 1024 →
  let r' := submitRecording (upload_fetch o sid p) r in
  let p' := snd (post_upload_audio o sid (Some (audioBlob r)) p) in
  (∃ row, p_db p' = p_db p ++ [row] ∧ file_size row = clip_size r ∧
          user_id row = userId lti) ∧
  r_audioChunks r' = [] ∧ truthy (r_audioUrl r') = false ∧ audioPlayer_src r' = "" ∧
  playBtn_disabled r' = true ∧ submitBtn_disabled r' = true ∧
  timer_textContent r' = "00:00" ∧ status_textContent r' = text_submitted.
Proof.
  intros Hc Hsess Hstore Hdb Hfresh Hchunks Hsize. cbv zeta.
  change (50 * 1024 * 1024) with fileSize_limit in Hsize.
  change (clip_size r) with (byte_length (audioBlob r)) in *.
  destruct (accepted_upload_result o sid (audioBlob r) lti p (cons_storage _ Hc)
              Hsess eq_refl Hsize Hstore Hdb Hfresh) as (url & name & p2 & Hrun & Hrows & _).
  split.
  - rewrite Hrun. simpl. destruct (grade_frame o lti p2) as (Hd & _). simpl in Hd.
    rewrite Hd, Hrows. by eexists.
  - unfold submitRecording, submit_begin.
    destruct (r_audioChunks r) as [|c cs] eqn:Hcs; [done|]. simpl.
    apply N.ltb_ge in Hsize. change fileSize_limit with client_size_limit in Hsize.
    rewrite Hsize. unfold upload_fetch.
    rewrite Hrun. simpl. destruct (truthy (r_audioUrl r)) eqn:Hurl; simpl; by rewrite ?Hurl.
Qed.

Lemma submit_end_to_end_witness :
  (∃ row, p_db (snd (post_upload_audio quiet "sess1" (Some (audioBlob with_clip))
                       (launched local_env))) = [row] ∧ file_size row = 4) ∧
  r_audioChunks (submitRecording (upload_fetch quiet "sess1" (launched local_env)) with_clip)
    = [].
Proof.
  destruct (submit_end_to_end quiet "sess1" u1_session (launched local_env) with_clip)
    as ((row & Hdb & Hsize & _) & Hchunks & _).
  - apply launched_consistent.
  - reflexivity.
  - reflexivity.
  - reflexivity.
  - intros x Hx. by apply elem_of_nil in Hx.
  - discriminate.
  - vm_compute. discriminate.
  - split; [|exact Hchunks]. exists row. split; [exact Hdb|exact Hsize].
Defined.

(** X17. A refused submission can be retried without recording again:
    when the server answers anything but 200 (no session, refused file,
    storage or database failure), or the request itself fails, the
    recorder keeps its chunks, player source and object URL, shows an
    error, enables the submit button again with its label restored, and
    the next submission sends the same clip. *)
Theorem refused_submission_can_be_retried (o : Oracle) (sid : string)
  (p : Process) (r : Recorder) :
  r_audioChunks r ≠ [] → clip_size r ≤ 50 * 1024 * 1024 →
  status (fst (post_upload_audio o sid (Some (audioBlob r)) p)) ≠ 200 →
  let r' := submitRecording (upload_fetch o sid p) r in
  r_audioChunks r' = r_audioChunks r ∧ r_audioUrl r' = r_audioUrl r ∧
  audioPlayer_src r' = audioPlayer_src r ∧ playBtn_disabled r' = playBtn_disabled r ∧
  submitBtn_disabled r' = false ∧ submitBtn_innerHTML r' = label_submit ∧
  status_className r' = "status status-error" ∧
  (∃ e, payload (fst (post_upload_audio o sid (Some (audioBlob r)) p)) = JError e ∧
        status_textContent r' = text_submission_failed +:+ e) ∧
  snd (submit_begin r') = Some (audioBlob r) ∧
  (∀ message,
     r_audioChunks (submit_end (FetchFailed message) (fst (submit_begin r)))
       = r_audioChunks r ∧
     submitBtn_disabled (submit_end (FetchFailed message) (fst (submit_begin r))) = false).
Proof.
  intros Hchunks Hsize Hbad. cbv zeta.
  change (50 * 1024 * 1024) with client_size_limit in Hsize.
  change (clip_size r) with (byte_length (audioBlob r)) in Hsize.
  apply N.ltb_ge in Hsize.
  destruct (upload_answer_body o sid (Some (audioBlob r)) p) as [[H200 _]|[_ (e & He & Hne)]];
    [done|].
  assert (truthy (Some e) = true) as Htruthy.
  { simpl. apply negb_true_iff. by apply String.eqb_neq. }
  unfold submitRecording, submit_begin, upload_fetch.
  destruct (r_audioChunks r) as [|c cs] eqn:Hcs; [done|]. simpl.
  rewrite Hsize, He. simpl result_error. rewrite Htruthy. simpl.
  rewrite Hcs. simpl.
  assert (byte_length (audioBlob (submission_failed e
            (showStatus "Submitting your recording..." "info"
               (set_submitBtn_innerHTML label_submitting (set_submitBtn_disabled true r)))))
          = byte_length (audioBlob r)) as Hsame.
  { unfold audioBlob. simpl. by rewrite Hcs. }
  unfold submission_failed, showStatus in *. simpl in *.
  unfold audioBlob in *. simpl in *. rewrite Hcs in *. simpl in *. rewrite Hsize.
  repeat split; try done. by exists e.
Qed.

Lemma refused_submission_can_be_retried_witness :
  r_audioChunks (submitRecording (upload_fetch quiet "nobody" (launched local_env)) with_clip)
    = r_audioChunks with_clip ∧
  status_textContent
    (submitRecording (upload_fetch quiet "nobody" (launched local_env)) with_clip)
    = text_submission_failed +:+ "Session expired. Please relaunch from Canvas.".
Proof.
  destruct (refused_submission_can_be_retried quiet "nobody" (launched local_env) with_clip)
    as (Hchunks & _ & _ & _ & _ & _ & _ & (e & He & Htext) & _).
  - discriminate.
  - vm_compute. discriminate.
  - vm_compute. discriminate.
  - split; [exact Hchunks|]. rewrite Htext. injection He as <-. reflexivity.
Defined.

(** ** Starting and stopping *)

Lemma stopRecording_idle (throws : bool) (r : Recorder) :
  r_isRecording r = false → stopRecording throws r = r.
Proof. intros H. unfold stopRecording. by rewrite H, andb_false_r. Qed.

Lemma visibilitychange_idle (hidden throws : bool) (r : Recorder) :
  r_isRecording r = false → visibilitychange hidden throws r = r.
Proof. intros H. unfold visibilitychange. by rewrite H, andb_false_r. Qed.

(** X18. Stopping is safe to repeat: [stopRecording] does nothing unless
    a recording is running, and after a stop that succeeded a second one
    changes nothing.  A stop in which [MediaRecorder.stop] throws leaves
    the recorder in the recording state, its timer still running and its
    chunks kept. *)
Theorem stopRecording_repeatable (r : Recorder) :
  (r_isRecording r = false → ∀ throws, stopRecording throws r = r) ∧
  (r_mediaRecorder r = true → r_isRecording (stopRecording false r) = false) ∧
  (∀ throws, stopRecording throws (stopRecording false r) = stopRecording false r) ∧
  r_isRecording (stopRecording true r) = r_isRecording r ∧
  r_ticking (stopRecording true r) = r_ticking r ∧
  (∀ throws, r_audioChunks (stopRecording throws r) = r_audioChunks r).
Proof.
  unfold stopRecording, stopTimer, showStatus.
  destruct r as [? rec ? isrec ? interval ? ? ? ? ? ? ? ? ? ? ? ?]. simpl.
  destruct rec, isrec, interval; simpl; repeat split; try done;
    try (intros throws; by destruct throws).
Qed.

Lemma stopRecording_repeatable_witness :
  stopRecording true with_clip = with_clip.
Proof.
  destruct (stopRecording_repeatable with_clip) as (Hidle & _).
  apply Hidle. reflexivity.
Defined.

(** X19. Starting a recording empties the chunk list before the
    [MediaRecorder] is built: when the constructor throws, the clip
    recorded before can still be played but no longer submitted, whatever
    the state of the submit button. *)
Theorem failed_start_discards_clip (message : string) (now : Z) (r : Recorder) :
  r_stream r = true →
  let r' := startRecording (ConstructorThrows message) now r in
  r_audioChunks r' = [] ∧
  audioPlayer_src r' = audioPlayer_src r ∧
  playBtn_disabled r' = playBtn_disabled r ∧
  submitBtn_disabled r' = submitBtn_disabled r ∧
  r_isRecording r' = r_isRecording r ∧
  snd (submit_begin r') = None ∧
  status_textContent (fst (submit_begin r')) = "No recording to submit".
Proof.
  intros Hstream. cbv zeta. unfold startRecording, submit_begin. rewrite Hstream.
  simpl. done.
Qed.

Lemma failed_start_discards_clip_witness :
  r_audioChunks (startRecording (ConstructorThrows "NotSupportedError") 0 with_clip) = [] ∧
  submitBtn_disabled (startRecording (ConstructorThrows "NotSupportedError") 0 with_clip)
    = false.
Proof.
  destruct (failed_start_discards_clip "NotSupportedError" 0 with_clip)
    as (Hchunks & _ & _ & Hsubmit & _); [reflexivity|].
  split; [exact Hchunks|exact Hsubmit].
Defined.

(** X20. Nothing keeps the user from starting a new recording while a
    submission is on its way.  When the success answer then arrives, the
    reset it triggers clears the chunks of the new recording and the
    recording flag while the timer keeps running: the record button stays
    disabled and [stopRecording] no longer does anything, so the running
    recording cannot be stopped from the page. *)
Theorem start_during_submission_cannot_be_stopped (result : Payload) (now : Z)
  (r : Recorder) :
  r_stream r = true → recordBtn_disabled r = false →
  r_audioChunks r ≠ [] → clip_size r ≤ 50 * 1024 * 1024 →
  result_success result = true →
  let sending := fst (submit_begin r) in
  let r' := submit_end (FetchJson result) (startRecording Started now sending) in
  recordBtn_disabled sending = false ∧
  r_isRecording (startRecording Started now sending) = true ∧
  r_isRecording r' = false ∧ r_timerInterval r' = true ∧
  r_ticking r' = S (r_ticking r) ∧
  recordBtn_disabled r' = true ∧ stopBtn_disabled r' = false ∧
  r_audioChunks r' = [] ∧
  (∀ throws, stopRecording throws r' = r') ∧
  (∀ hidden throws, visibilitychange hidden throws r' = r').
Proof.
  intros Hstream Hrec Hchunks Hsize Hok. cbv zeta.
  change (50 * 1024 * 1024) with client_size_limit in Hsize.
  change (clip_size r) with (byte_length (audioBlob r)) in Hsize.
  apply N.ltb_ge in Hsize.
  unfold submit_begin. destruct (r_audioChunks r) as [|c cs] eqn:Hcs; [done|]. simpl.
  rewrite Hsize. simpl. unfold startRecording. simpl. rewrite Hstream. simpl.
  rewrite Hok. simpl.
  destruct (truthy (r_audioUrl r)); simpl.
  all: do 8 (split; [done|]); split.
  all: intros; first [by apply stopRecording_idle | by apply visibilitychange_idle].
Qed.

Lemma start_during_submission_cannot_be_stopped_witness :
  stopRecording false
    (submit_end (FetchJson (JUploaded true "s0" "/uploads/f0.webm" "ok"))
       (startRecording Started 5000 (fst (submit_begin with_clip))))
  = submit_end (FetchJson (JUploaded true "s0" "/uploads/f0.webm" "ok"))
       (startRecording Started 5000 (fst (submit_begin with_clip))).
Proof.
  destruct (start_during_submission_cannot_be_stopped
              (JUploaded true "s0" "/uploads/f0.webm" "ok") 5000 with_clip)
    as (_ & _ & _ & _ & _ & _ & _ & _ & Hstop & _).
  - reflexivity.
  - reflexivity.
  - discriminate.
  - vm_compute. discriminate.
  - reflexivity.
  - apply Hstop.
Defined.

(** X21. When the tab is hidden during a recording, the recording is
    stopped (if [MediaRecorder.stop] does not throw): the flag is cleared,
    the interval is cleared, record is enabled and stop disabled, the
    chunks recorded so far are kept and the user is told why.  A tab that
    becomes visible, or is hidden while nothing is recorded, changes
    nothing. *)
Theorem hidden_tab_stops_recording (r : Recorder) :
  (r_mediaRecorder r = true → r_isRecording r = true → r_timerInterval r = true →
   let r' := visibilitychange true false r in
   r_isRecording r' = false ∧ r_timerInterval r' = false ∧
   r_ticking r' = pred (r_ticking r) ∧
   recordBtn_disabled r' = false ∧ stopBtn_disabled r' = true ∧
   r_audioChunks r' = r_audioChunks r ∧
   status_textContent r' = "Recording stopped because tab became inactive") ∧
  (∀ throws, visibilitychange false throws r = r) ∧
  (r_isRecording r = false → ∀ hidden throws, visibilitychange hidden throws r = r).
Proof.
  split; [|split].
  - intros Hrec Hisrec Hint. cbv zeta.
    unfold visibilitychange, stopRecording, stopTimer. rewrite Hrec, Hisrec. simpl.
    rewrite Hint. simpl. done.
  - done.
  - intros Hisrec hidden throws. unfold visibilitychange. rewrite Hisrec.
    by rewrite andb_false_r.
Qed.

Lemma hidden_tab_stops_recording_witness :
  r_isRecording (visibilitychange true false (startRecording Started 0 with_clip)) = false ∧
  status_textContent (visibilitychange true false (startRecording Started 0 with_clip))
    = "Recording stopped because tab became inactive".
Proof.
  destruct (hidden_tab_stops_recording (startRecording Started 0 with_clip))
    as (Hstop & _).
  destruct Hstop as (Hrec & _ & _ & _ & _ & _ & Htext); try reflexivity.
  split; [exact Hrec|exact Htext].
Defined.

(** ** The timer *)

Lemma string_length_app (s1 s2 : string) :
  String.length (s1 +:+ s2) = (String.length s1 + String.length s2)%nat.
Proof. induction s1 as [|c s1 IH]; simpl; [done|]. by rewrite IH. Qed.

Lemma two_digits (n : nat) :
  (n < 100)%nat → String.length (padStart 2 (toString (Z.of_nat n))) = 2%nat.
Proof.
  intros Hn. do 100 (destruct n as [|n]; [vm_compute; reflexivity|]). lia.
Qed.

(** X22. While the clock does not run backwards and the recording is
    shorter than 100 minutes, the timer shows exactly five characters:
    the whole minutes and the remaining seconds of the elapsed time, each
    as two digits, around a colon. *)
Theorem timer_text_shape (startTime now : Z) :
  (startTime ≤ now < startTime + 6000000)%Z →
  String.length (timer_text startTime now) = 5%nat ∧
  ∃ m s : nat,
    (m < 100)%nat ∧ (s < 60)%nat ∧
    ((now - startTime) / 1000 = 60 * Z.of_nat m + Z.of_nat s)%Z ∧
    String.length (padStart 2 (toString (Z.of_nat m))) = 2%nat ∧
    String.length (padStart 2 (toString (Z.of_nat s))) = 2%nat ∧
    timer_text startTime now
      = padStart 2 (toString (Z.of_nat m)) +:+ ":" +:+ padStart 2 (toString (Z.of_nat s)).
Proof.
  intros Hnow. unfold timer_text.
  set (elapsed := ((now - startTime) / 1000)%Z).
  assert (0 ≤ elapsed < 6000)%Z as He.
  { unfold elapsed. split.
    - apply Z.div_pos; lia.
    - apply Z.div_lt_upper_bound; lia. }
  rewrite Z.rem_mod_nonneg by lia.
  assert (0 ≤ elapsed / 60 < 100)%Z as Hm.
  { split; [apply Z.div_pos; lia|apply Z.div_lt_upper_bound; lia]. }
  assert (0 ≤ elapsed `mod` 60 < 60)%Z as Hs by (apply Z.mod_pos_bound; lia).
  assert (String.length (padStart 2 (toString (elapsed / 60)%Z)) = 2%nat) as Hlm.
  { rewrite <- (Z2Nat.id (elapsed / 60)) by lia. apply two_digits. lia. }
  assert (String.length (padStart 2 (toString (elapsed `mod` 60)%Z)) = 2%nat) as Hls.
  { rewrite <- (Z2Nat.id (elapsed `mod` 60)) by lia. apply two_digits. lia. }
  split.
  - rewrite !string_length_app, Hlm, Hls. reflexivity.
  - exists (Z.to_nat (elapsed / 60)), (Z.to_nat (elapsed `mod` 60)).
    rewrite !Z2Nat.id by lia.
    split; [lia|]. split; [lia|]. split; [|done].
    pose proof (Z.div_mod elapsed 60). lia.
Qed.

Lemma timer_text_shape_witness :
  String.length (timer_text 1700000000000 1700000125000) = 5%nat.
Proof.
  destruct (timer_text_shape 1700000000000 1700000125000) as [Hlen _]; [lia|].
  exact Hlen.
Defined.
